(** * Session classification and completion-confidence engine

    A shallow embedding of the decision logic of
    [claude-usage-analyzer/scripts/analyze_sessions.py]: the git-operation
    classifier, the failure-signal detector, the task-type and session-type
    classifiers, the completion evaluator, the confidence scorer and the
    outcome resolver of [analyze_session], followed by the properties the
    specification states about them.

    Modelling conventions.
    - Python [str] values are Rocq [string]s.  Case mapping and the regex
      character classes are the ASCII ones; a character above 127 is kept
      as it is by [lower] and is neither a word character nor white space.
    - Python [int] counters are [Z].
    - [duration_minutes] is a nullable number: [option Q].  Durations are
      only ever compared with integer constants, which [Q] does exactly.
    - A ratio [a / b > k] between counters with [b > 0] is written
      [a > k * b].
    - Dicts with a fixed set of keys are records; the free-text
      [description] and [evidence] entries of signals and issues, which no
      decision reads, are left out. *)

From Stdlib Require Import String Ascii List Bool ZArith QArith Lia Lqa.
Import ListNotations.

Open Scope string_scope.
Open Scope list_scope.

(** ** Python string operations *)

Module PyStr.

Definition lower_char (c : ascii) : ascii :=
  let n := nat_of_ascii c in
  if (65 <=? n)%nat && (n <=? 90)%nat then ascii_of_nat (n + 32) else c.

(** [s.lower()] *)
Fixpoint lower (s : string) : string :=
  match s with
  | EmptyString => EmptyString
  | String c s' => String (lower_char c) (lower s')
  end.

(** [s.startswith(p)] *)
Fixpoint startswith (p s : string) : bool :=
  match p, s with
  | EmptyString, _ => true
  | String _ _, EmptyString => false
  | String a p', String b s' => Ascii.eqb a b && startswith p' s'
  end.

(** [sub in s] for strings *)
Fixpoint contains (sub s : string) : bool :=
  startswith sub s ||
  match s with
  | EmptyString => false
  | String _ s' => contains sub s'
  end.

(** [sep.join(l)] *)
Fixpoint join (sep : string) (l : list string) : string :=
  match l with
  | [] => ""
  | [x] => x
  | x :: rest => x ++ sep ++ join sep rest
  end.

(** [x in l] for a list of strings *)
Definition mem (x : string) (l : list string) : bool :=
  existsb (String.eqb x) l.

(** [any(w in text for w in words)] *)
Definition any_in (words : list string) (text : string) : bool :=
  existsb (fun w => contains w text) words.

End PyStr.

(** ** The fragment of Python's [re] the analyzer uses

    Every pattern of the source is a plain sequence of pieces: a literal
    character, [\s], [.], each possibly followed by [*], [+] or [?], and the
    zero-width [\b]. *)

Module Re.

Inductive atom : Type :=
| AChar (c : ascii)
| ASpace
| AAny.

Inductive item : Type :=
| IOne (a : atom)
| IStar (a : atom)
| IPlus (a : atom)
| IOpt (a : atom)
| IWordB.

Definition is_word (c : ascii) : bool :=
  let n := nat_of_ascii c in
  ((97 <=? n) && (n <=? 122) || (65 <=? n) && (n <=? 90)
   || (48 <=? n) && (n <=? 57) || (n =? 95))%nat.

Definition is_space (c : ascii) : bool :=
  let n := nat_of_ascii c in
  ((9 <=? n) && (n <=? 13) || (28 <=? n) && (n <=? 32))%nat.

Definition atom_ok (a : atom) (c : ascii) : bool :=
  match a with
  | AChar d => Ascii.eqb d c
  | ASpace => is_space c
  | AAny => negb (Ascii.eqb c "010"%char)
  end.

Definition word_opt (o : option ascii) : bool :=
  match o with
  | Some c => is_word c
  | None => false
  end.

Definition head (s : string) : option ascii :=
  match s with
  | EmptyString => None
  | String c _ => Some c
  end.

(** [\b]: exactly one of the two neighbours is a word character *)
Definition at_boundary (prev : option ascii) (s : string) : bool :=
  xorb (word_opt prev) (word_opt (head s)).

Definition quantify (a : atom) (rest : string) : item * string :=
  match rest with
  | String "*" r => (IStar a, r)
  | String "+" r => (IPlus a, r)
  | String "?" r => (IOpt a, r)
  | _ => (IOne a, rest)
  end.

(** Reading a pattern of the fragment.  The fuel is the length of the text,
    an upper bound on the number of pieces. *)
Fixpoint parse_fuel (fuel : nat) (p : string) : list item :=
  match fuel with
  | O => []
  | S fuel' =>
    match p with
    | EmptyString => []
    | String "\" (String "b" r) => IWordB :: parse_fuel fuel' r
    | String "\" (String "s" r) =>
        let '(i, r') := quantify ASpace r in i :: parse_fuel fuel' r'
    | String "\" (String c r) =>
        let '(i, r') := quantify (AChar c) r in i :: parse_fuel fuel' r'
    | String "." r =>
        let '(i, r') := quantify AAny r in i :: parse_fuel fuel' r'
    | String c r =>
        let '(i, r') := quantify (AChar c) r in i :: parse_fuel fuel' r'
    end
  end.

Definition parse (p : string) : list item := parse_fuel (String.length p) p.

(** Does the sequence of pieces match a prefix of [s], when the character
    before [s] is [prev]? *)
Fixpoint match_here (p : list item) : option ascii -> string -> bool :=
  match p with
  | [] => fun _ _ => true
  | i :: p' =>
    let k := match_here p' in
    let star (a : atom) :=
      fix star (prev : option ascii) (s : string) {struct s} : bool :=
        k prev s ||
        match s with
        | EmptyString => false
        | String c s' => atom_ok a c && star (Some c) s'
        end in
    match i with
    | IWordB => fun prev s => at_boundary prev s && k prev s
    | IOne a => fun _ s =>
        match s with
        | EmptyString => false
        | String c s' => atom_ok a c && k (Some c) s'
        end
    | IOpt a => fun prev s =>
        match s with
        | EmptyString => false
        | String c s' => atom_ok a c && k (Some c) s'
        end || k prev s
    | IStar a => star a
    | IPlus a => fun _ s =>
        match s with
        | EmptyString => false
        | String c s' => atom_ok a c && star a (Some c) s'
        end
    end
  end.

Fixpoint search_from (p : list item) (prev : option ascii) (s : string) : bool :=
  match_here p prev s ||
  match s with
  | EmptyString => false
  | String c s' => search_from p (Some c) s'
  end.

(** [bool(re.search(pat, s))] *)
Definition search (pat s : string) : bool := search_from (parse pat) None s.

(** [any(re.search(pat, s) for pat in pats)] *)
Definition search_any (pats : list string) (s : string) : bool :=
  existsb (fun pat => search pat s) pats.

End Re.

Import PyStr.

(** ** Data model *)

(** The dict returned by [classify_git_operations]. *)
Record GitOps : Type := mkGitOps {
  has_commit : bool;
  has_push : bool;
  has_add : bool;
  read_only : bool;
  has_failed_commit : bool;
  commit_count : Z;
  git_commands : list string
}.

(** A failure signal dict.  The readers use [s.get("type")] and
    [s.get("severity", default)], so either key may be absent. *)
Record FailureSignal : Type := mkSignal {
  fs_type : option string;
  fs_severity : option Z
}.

Definition signal (ty : string) (sev : Z) : FailureSignal :=
  mkSignal (Some ty) (Some sev).

(** [s.get("type") == ty] *)
Definition type_is (ty : string) (s : FailureSignal) : bool :=
  match fs_type s with
  | Some t => String.eqb t ty
  | None => false
  end.

(** [s.get("severity", d)] *)
Definition severity_or (d : Z) (s : FailureSignal) : Z :=
  match fs_severity s with
  | Some v => v
  | None => d
  end.

(** The dict returned by [evaluate_task_completion]. *)
Record CompletionEval : Type := mkCompletion {
  completed : bool;
  completion_type : string;
  criteria_met : list string;
  criteria_missing : list string;
  failure_severity : Z
}.

(** The dict returned by [calculate_completion_confidence]. *)
Record Confidence : Type := mkConfidence {
  score : Z;
  positive_signals : list (string * Z);
  negative_signals : list (string * Z);
  assessment : string
}.

(** The session record, after [normalize_session].  [duration_minutes] is
    [None] for a JSON null; [prior_outcome] is [metadata.outcome];
    [orig_task_type] and [orig_issues] are the entries of [_original]. *)
Record Session : Type := mkSession {
  duration_minutes : option Q;
  prior_outcome : option string;
  user_messages : Z;
  tool_call_count : Z;
  total_turns : Z;
  tools_used : list string;
  initial_prompts : list string;
  commands_sample : list string;
  files_touched : list string;
  orig_task_type : option string;
  orig_issues : list string
}.

(** The decision-bearing part of the dict returned by [analyze_session]. *)
Record Analysis : Type := mkAnalysis {
  task_type : string;
  likely_completed : bool;
  outcome : string;
  confidence : Confidence;
  completion : CompletionEval;
  failure_signals : list FailureSignal;
  git_operations : GitOps;
  issues : list string
}.
(* [completion] is the evaluator's dict, from which the result takes
   [completion_type], [criteria_met] and [criteria_missing]; [issues] holds
   the types of [quality_assessment.issues]. *)

(** Comparisons of a duration with a constant. *)
Definition Qltb (x y : Q) : bool := negb (Qle_bool y x).
Definition Qgtb (x y : Q) : bool := negb (Qle_bool x y).
Definition Qgeb (x y : Q) : bool := Qle_bool y x.

(** [x or 0] on a nullable number *)
Definition or_zero (d : option Q) : Q :=
  match d with
  | Some q => q
  | None => inject_Z 0
  end.

(** Truthiness of an optional string: present and not empty. *)
Definition truthy (o : option string) : bool :=
  match o with
  | Some s => negb (String.eqb s "")
  | None => false
  end.

(** [o or d] on an optional string *)
Definition or_else (o : option string) (d : string) : string :=
  match o with
  | Some s => if String.eqb s "" then d else s
  | None => d
  end.

Definition is_nil {A : Type} (l : list A) : bool :=
  match l with
  | [] => true
  | _ :: _ => false
  end.

Definition len {A : Type} (l : list A) : Z := Z.of_nat (List.length l).

(** ** Git operation classifier *)

(** The accumulators of the first loop of [classify_git_operations]. *)
Record GitScan : Type := mkGitScan {
  gs_commands : list string;
  gs_commit : bool;
  gs_push : bool;
  gs_add : bool;
  gs_failed_commit : bool;
  gs_commit_count : Z
}.

Definition git_scan_init : GitScan := mkGitScan [] false false false false 0.

(** One iteration of [for cmd in commands]. *)
Definition git_scan_step (st : GitScan) (cmd : string) : GitScan :=
  let cmd_lower := lower cmd in
  if negb (contains "git" cmd_lower) then st
  else
    let is_commit := Re.search "\bgit\s+commit\b" cmd_lower in
    let failed :=
      contains "error" cmd_lower || contains "fail" cmd_lower
      || contains "abort" cmd_lower in
    {| gs_commands := gs_commands st ++ [cmd];
       gs_commit := if is_commit then true else gs_commit st;
       gs_push :=
         if Re.search "\bgit\s+push\b" cmd_lower then true else gs_push st;
       gs_add :=
         if Re.search "\bgit\s+add\b" cmd_lower then true else gs_add st;
       gs_failed_commit :=
         if is_commit && failed then true else gs_failed_commit st;
       gs_commit_count :=
         if is_commit then (gs_commit_count st + 1)%Z else gs_commit_count st |}.

Definition read_only_patterns : list string :=
  [ "\bgit\s+status\b"; "\bgit\s+log\b"; "\bgit\s+diff\b";
    "\bgit\s+branch\b"; "\bgit\s+show\b"; "\bgit\s+remote\b";
    "\bgit\s+fetch\b"; "\bgit\s+ls-files\b"; "\bgit\s+rev-parse\b" ].

Definition is_read_only (cmd : string) : bool :=
  Re.search_any read_only_patterns (lower cmd).

Definition classify_git_operations (commands : list string) : GitOps :=
  let st := fold_left git_scan_step commands git_scan_init in
  (* the second loop stops at the first command that is not read-only *)
  let read_only := forallb is_read_only (gs_commands st) in
  let read_only := if is_nil (gs_commands st) then false else read_only in
  {| has_commit := gs_commit st;
     has_push := gs_push st;
     has_add := gs_add st;
     read_only := read_only;
     has_failed_commit := gs_failed_commit st;
     commit_count := gs_commit_count st;
     git_commands := gs_commands st |}.

(** ** Issue detector *)

(** [detect_issues]: the types of the issues found, in order.  The last
    check compares the raw [duration_minutes] with 5, which raises a
    [TypeError] on a null duration: the result is then [None]. *)
Definition detect_issues (s : Session) : option (list string) :=
  let commands := commands_sample s in
  let command_errors :=
    map (fun _ => "command_error")
        (filter (fun cmd => contains "error" (lower cmd)
                            || contains "fail" (lower cmd)) commands) in
  let tool_count := tool_call_count s in
  let user_msgs := user_messages s in
  let high_tool_usage :=
    if (user_msgs >? 0)%Z && (tool_count >? 10 * user_msgs)%Z
    then ["high_tool_usage"] else [] in
  match duration_minutes s with
  | None => None
  | Some duration =>
      let rapid :=
        if Qltb duration (inject_Z 5) && (total_turns s >? 20)%Z
        then ["rapid_interactions"] else [] in
      Some (command_errors ++ high_tool_usage ++ rapid)
  end.

(** ** Failure signal detector *)

Definition error_patterns : list string :=
  [ "\berror\b"; "\bfailed\b"; "\bfailure\b"; "\bexception\b";
    "\bcrash\b"; "\btimeout\b"; "\bdenied\b"; "\bforbidden\b";
    "\bnot found\b"; "\bcannot\b"; "\bunable to\b" ].

Definition frustration_patterns : list string :=
  [ "\bnever\s*mind\b"; "\bforget\s*it\b"; "\bgive\s*up\b";
    "\bdoesn\'?t\s*work\b"; "\bnot\s*working\b"; "\bstop\b";
    "\bcancel\b"; "\babort\b"; "\bwrong\b"; "\bbroken\b";
    "\bundo\b"; "\brevert\b"; "\btry\s*again\b"; "\bstill\s*broken\b" ].

(** [any(t in tools_used for t in ["Read", "Grep", "Glob"])] *)
Definition uses_read_tools (tools : list string) : bool :=
  existsb (fun t => mem t tools) ["Read"; "Grep"; "Glob"].

(** [any(t in tools_used for t in ["Edit", "Write"])] *)
Definition uses_edit_tools (tools : list string) : bool :=
  existsb (fun t => mem t tools) ["Edit"; "Write"].

Definition detect_failure_signals (s : Session) : list FailureSignal :=
  let commands := commands_sample s in
  let prompts := initial_prompts s in
  let tools_used := tools_used s in
  let tool_count := tool_call_count s in
  let user_msgs := user_messages s in
  let duration := or_zero (duration_minutes s) in
  (* 1. error patterns in commands *)
  let error_commands :=
    filter (fun cmd => Re.search_any error_patterns (lower cmd)) commands in
  let sig_errors :=
    if is_nil error_commands then []
    else [signal "error_in_commands" (Z.min 3 (len error_commands))] in
  (* 2. high retry ratio *)
  let sig_retry :=
    if (user_msgs >? 0)%Z && (tool_count >? 0)%Z
       && (tool_count >? 15 * user_msgs)%Z
    then [signal "high_retry_ratio" 2] else [] in
  (* 3a. quick abandonment *)
  let sig_abandon :=
    if Qltb duration (inject_Z 2) && (tool_count >? 5)%Z
    then [signal "quick_abandonment" 2] else [] in
  (* 3b. reads without edits *)
  let has_reads := uses_read_tools tools_used in
  let has_edits := uses_edit_tools tools_used in
  let sig_read :=
    if has_reads && negb has_edits && (tool_count >? 10)%Z
    then [signal "read_without_edit" 1] else [] in
  (* 3c. failed git commit *)
  let git_ops := classify_git_operations commands in
  let sig_git :=
    if has_failed_commit git_ops then [signal "failed_git_commit" 2] else [] in
  (* 4. user frustration *)
  let frustration_found :=
    filter (fun prompt => Re.search_any frustration_patterns (lower prompt))
           prompts in
  let sig_frustration :=
    if is_nil frustration_found then []
    else [signal "user_frustration" 2] in
  (* 5. no tangible output *)
  let sig_output :=
    if Qgtb duration (inject_Z 5) && negb has_edits
       && negb (has_commit git_ops) && (tool_count >? 10)%Z
    then [signal "no_tangible_output" 1] else [] in
  sig_errors ++ sig_retry ++ sig_abandon ++ sig_read ++ sig_git
  ++ sig_frustration ++ sig_output.

(** ** Session-type classifier *)

Definition write_tools : list string := ["Edit"; "Write"; "NotebookEdit"].

Definition classify_session_type
    (duration_minutes : Q) (tool_calls : Z) (has_edits : bool)
    (tools_used : list string) : string :=
  if has_edits then "work"
  else if Qgeb duration_minutes (inject_Z 5) then "work"
  else if (tool_calls >=? 10)%Z then "work"
  else
    (* bool(set(tools_used) & write_tools) *)
    let has_write_tools := existsb (fun t => mem t write_tools) tools_used in
    if has_write_tools then "work" else "lookup".

(** ** Task-type classifier *)

Definition bug_fix_words : list string :=
  [ "bug"; "fix"; "error"; "issue"; "broken"; "doesn't work"; "not working";
    "failing"; "crash"; "exception"; "resolve"; "patch" ].

Definition testing_words : list string :=
  [ "test"; "spec"; "e2e"; "unit test"; "integration test"; "coverage";
    "assertion"; "mock"; "stub"; "jest"; "pytest"; "testing" ].

Definition config_words : list string :=
  [ "config"; "setup"; "install"; "terraform"; "infra"; "infrastructure";
    "deploy"; "ci"; "cd"; "pipeline"; "docker"; "kubernetes"; "k8s";
    "environment"; "env"; "yaml"; "json config" ].

Definition review_words : list string :=
  [ "review"; "pr"; "pull request"; "code review"; "feedback";
    "approve"; "merge"; "diff"; "changes" ].

Definition exploration_words : list string :=
  [ "explain"; "what is"; "how does"; "document"; "learn";
    "describe"; "tell me about"; "help me understand" ].

Definition debug_words : list string :=
  [ "debug"; "investigate"; "why"; "understand"; "trace"; "log";
    "what's happening"; "look into"; "figure out"; "diagnose" ].

Definition refactor_words : list string :=
  [ "refactor"; "clean"; "improve"; "optimize"; "restructure";
    "reorganize"; "simplify"; "rename"; "extract"; "consolidate" ].

Definition feature_words : list string :=
  [ "add"; "create"; "implement"; "new feature"; "build"; "introduce";
    "develop"; "make"; "generate"; "design" ].

Definition update_words : list string :=
  [ "update"; "change"; "modify"; "edit"; "adjust"; "tweak";
    "alter"; "revise"; "enhance"; "upgrade"; "migrate" ].

Definition lookup_words : list string :=
  [ "find"; "search"; "locate"; "where"; "show me"; "list";
    "get"; "fetch"; "check"; "verify"; "validate"; "confirm" ].

(** [" ".join(str(p) for p in prompts).lower()] *)
Definition all_text (prompts : list string) : string :=
  lower (join " " prompts).

Definition classify_task_type
    (prompts commands tools : list string)
    (duration : option Q) (tool_calls : option Z) (has_edits : option bool)
    : string :=
  let all_text := all_text prompts in
  let is_likely_lookup :=
    match duration with
    | None => false
    | Some d =>
        Qltb d (inject_Z 5)
        && negb (match has_edits with Some b => b | None => false end)
        && ((match tool_calls with Some n => n | None => 0 end) <? 10)%Z
    end in
  if any_in bug_fix_words all_text then "bug_fix"
  else if any_in testing_words all_text then "testing"
  else if any_in config_words all_text then "config"
  else if any_in review_words all_text then "review"
  else if any_in exploration_words all_text then "exploration"
  else if any_in debug_words all_text then "debug"
  else if any_in refactor_words all_text then "refactor"
  else if any_in feature_words all_text then "feature"
  else if any_in update_words all_text then "update"
  else if any_in lookup_words all_text then "lookup"
  else if is_likely_lookup then "lookup"
  else "general".

(** ** Completion evaluator *)

Definition test_patterns : list string :=
  [ "\btest\b"; "\bpytest\b"; "\bjest\b"; "\bnpm\s+test\b";
    "\byarn\s+test\b"; "\bgradle.*test\b" ].

(** [any(any(re.search(pat, cmd.lower()) for pat in test_patterns)
         for cmd in commands)] *)
Definition test_run (commands : list string) : bool :=
  existsb (fun cmd => Re.search_any test_patterns (lower cmd)) commands.

(** The two lists [criteria_met] and [criteria_missing] the evaluator
    appends to. *)
Record Criteria : Type := mkCriteria {
  met : list string;
  missing : list string
}.

(** [if c: criteria_met.append(m) else: criteria_missing.append(x)] *)
Definition check (c : bool) (m x : string) (cr : Criteria) : Criteria :=
  if c then mkCriteria (met cr ++ [m]) (missing cr)
  else mkCriteria (met cr) (missing cr ++ [x]).

(** [if c: criteria_met.append(m)] *)
Definition note (c : bool) (m : string) (cr : Criteria) : Criteria :=
  if c then mkCriteria (met cr ++ [m]) (missing cr) else cr.

(** [sum(s.get("severity", 0) for s in failure_signals)] *)
Definition total_severity (signals : list FailureSignal) : Z :=
  fold_right (fun s acc => (severity_or 0 s + acc)%Z) 0%Z signals.

(** [any(s.get("severity", 0) >= 2 for s in failure_signals)] *)
Definition high_severity_failure (signals : list FailureSignal) : bool :=
  existsb (fun s => (severity_or 0 s >=? 2)%Z) signals.

(** The branch of the [if task_type == ...] chain: the criteria recorded
    and the type-specific value of [completed].  The source also computes
    [has_build] from [build_patterns] and never reads it. *)
Definition type_specific
    (task_type : string) (has_edits has_reads : bool) (files_touched : Z)
    (git_ops : GitOps) (commands tools_used : list string)
    (duration : Q) (user_msgs : Z) : Criteria * bool :=
  let cr := mkCriteria [] [] in
  let has_test_run := test_run commands in
  if String.eqb task_type "bug_fix" then
    let cr := check has_edits "has_edits" "has_edits" cr in
    let cr := check (has_test_run || has_commit git_ops)
                    "has_verification" "has_verification (test or commit)" cr in
    (cr, has_edits && (has_test_run || has_commit git_ops))
  else if String.eqb task_type "feature" then
    let cr := check has_edits "has_edits" "has_edits" cr in
    let cr := check (files_touched >? 0)%Z "files_touched" "files_touched" cr in
    (cr, has_edits && (files_touched >? 0)%Z)
  else if String.eqb task_type "refactor" then
    let cr := check has_edits "has_edits" "has_edits" cr in
    let cr := check (files_touched >? 1)%Z
                    "multiple_files_touched" "multiple_files_touched (>1)" cr in
    (cr, has_edits && (files_touched >? 1)%Z)
  else if String.eqb task_type "debug" then
    let cr := note has_reads "has_reads" cr in
    let cr := check (Qgtb duration (inject_Z 5))
                    "sufficient_investigation_time"
                    "sufficient_investigation_time (>5 min)" cr in
    (cr, has_reads && Qgtb duration (inject_Z 5) && (user_msgs >? 1)%Z)
  else if String.eqb task_type "testing" then
    let cr := check has_test_run "test_execution" "test_execution" cr in
    let cr := note has_edits "has_edits" cr in
    (cr, has_test_run)
  else if String.eqb task_type "config" then
    let cr := note has_edits "has_edits" cr in
    let cr := note (mem "Bash" tools_used) "bash_execution" cr in
    (cr, has_edits || mem "Bash" tools_used)
  else if String.eqb task_type "exploration" then
    let cr := check has_reads "has_reads" "has_reads" cr in
    let cr := check (user_msgs >? 1)%Z
                    "user_interaction" "user_interaction (>1 message)" cr in
    (cr, has_reads && (user_msgs >? 1)%Z)
  else
    let cr := note has_edits "has_edits" cr in
    let cr := note (files_touched >? 0)%Z "files_touched" cr in
    let cr := note (has_commit git_ops || has_push git_ops) "git_changes" cr in
    (cr, has_edits
         || ((files_touched >? 0)%Z && (has_commit git_ops || has_push git_ops))).

Definition evaluate_task_completion
    (task_type : string) (has_edits has_reads : bool) (files_touched : Z)
    (git_ops : GitOps) (commands tools_used : list string)
    (duration : Q) (user_msgs : Z) (failure_signals : list FailureSignal)
    : CompletionEval :=
  let total_failure_severity := total_severity failure_signals in
  let has_high_severity_failure := high_severity_failure failure_signals in
  let '(cr, completed) :=
    type_specific task_type has_edits has_reads files_touched git_ops
                  commands tools_used duration user_msgs in
  (* downgrade completion if there are significant failure signals *)
  let '(cr, completed) :=
    if completed && has_high_severity_failure
    then (mkCriteria (met cr) (missing cr ++ ["failure_signals_detected"]), false)
    else (cr, completed) in
  let completion_type :=
    if completed then "completed"
    else if (len (met cr) >? 0)%Z && (len (met cr) >? len (missing cr))%Z
    then "partially_completed"
    else "not_completed" in
  {| completed := completed;
     completion_type := completion_type;
     criteria_met := met cr;
     criteria_missing := missing cr;
     failure_severity := total_failure_severity |}.

(** ** Confidence scorer *)

(** The running [score] and the two signal lists. *)
Record Tally : Type := mkTally {
  t_score : Z;
  t_pos : list (string * Z);
  t_neg : list (string * Z)
}.

(** [if c: score += d; positive_signals.append((name, d))] *)
Definition gain (c : bool) (name : string) (d : Z) (t : Tally) : Tally :=
  if c then mkTally (t_score t + d) (t_pos t ++ [(name, d)]) (t_neg t) else t.

(** [if c: score -= d; negative_signals.append((name, -d))] *)
Definition lose (c : bool) (name : string) (d : Z) (t : Tally) : Tally :=
  if c then mkTally (t_score t - d) (t_pos t) (t_neg t ++ [(name, (- d)%Z)])
  else t.

(** [any(s.get("type") == ty for s in failure_signals)], also the test
    that the list [[s for s in failure_signals if s.get("type") == ty]]
    is not empty *)
Definition has_signal (ty : string) (signals : list FailureSignal) : bool :=
  existsb (type_is ty) signals.

(** [[s for s in failure_signals if s.get("type") == "error_in_commands"]] *)
Definition error_signals (signals : list FailureSignal) : list FailureSignal :=
  filter (type_is "error_in_commands") signals.

(** [min(20, sum(s.get("severity", 1) * 5 for s in error_signals))] *)
Definition error_penalty (signals : list FailureSignal) : Z :=
  Z.min 20
    (fold_right (fun s acc => (severity_or 1 s * 5 + acc)%Z) 0%Z
                (error_signals signals)).

Definition assess (score : Z) : string :=
  if (score >=? 70)%Z then "high"
  else if (score >=? 40)%Z then "medium"
  else "low".

Definition calculate_completion_confidence
    (task_type : string) (has_edits has_reads : bool) (files_touched : Z)
    (git_ops : GitOps) (has_test_run : bool)
    (failure_signals : list FailureSignal) (duration : Q) (user_msgs : Z)
    (completion_eval : CompletionEval) : Confidence :=
  let t := mkTally 50 [] [] in
  (* positive signals *)
  let t := gain has_edits "has_edits" 15 t in
  let t := gain (has_commit git_ops && negb (has_failed_commit git_ops))
                "successful_commit" 20 t in
  let t := gain (has_push git_ops) "git_push" 10 t in
  let t := gain has_test_run "tests_ran" 15 t in
  let t := gain (files_touched >? 0)%Z "files_touched" 10 t in
  let t := gain ((files_touched >? 0)%Z && (files_touched >? 3)%Z)
                "multiple_files" 5 t in
  let t :=
    if String.eqb task_type "exploration" && Qgtb duration (inject_Z 3)
    then gain true "exploration_time" 5 t
    else gain (mem task_type ["bug_fix"; "feature"; "refactor"]
               && Qgtb duration (inject_Z 10))
              "sufficient_work_time" 5 t in
  let t := gain (user_msgs >? 2)%Z "user_engagement" 5 t in
  (* negative signals *)
  let t := lose (negb (is_nil (error_signals failure_signals)))
                "errors_detected" (error_penalty failure_signals) t in
  let t := lose (has_failed_commit git_ops) "failed_commit" 15 t in
  let t := lose (has_signal "high_retry_ratio" failure_signals)
                "high_retry_ratio" 15 t in
  let t := lose (has_signal "user_frustration" failure_signals)
                "user_frustration" 20 t in
  let t := lose (has_signal "quick_abandonment" failure_signals)
                "quick_abandonment" 20 t in
  let t := lose (has_signal "no_tangible_output" failure_signals)
                "no_tangible_output" 10 t in
  (* task-type specific adjustments *)
  let t :=
    if String.eqb task_type "exploration" && has_reads && negb has_edits
    then gain true "exploration_reads_ok" 10 t
    else gain (String.eqb task_type "debug" && has_reads
               && Qgtb duration (inject_Z 5))
              "debug_investigation" 10 t in
  (* completion evaluation criteria *)
  let criteria_met_count := len (criteria_met completion_eval) in
  let criteria_missing_count := len (criteria_missing completion_eval) in
  let t :=
    if (criteria_met_count >? criteria_missing_count)%Z
    then gain true "criteria_met" 10 t
    else lose (criteria_missing_count >? criteria_met_count)%Z
              "criteria_missing" 10 t in
  (* clamp to 0-100 *)
  let score := Z.max 0 (Z.min 100 (t_score t)) in
  {| score := score;
     positive_signals := t_pos t;
     negative_signals := t_neg t;
     assessment := assess score |}.

Definition COMPLETION_CONFIDENCE_THRESHOLD : Z := 60.

(** ** Outcome resolver and [analyze_session] *)

Definition outcome_labels : list string :=
  [ "completed"; "completed_with_issues"; "partially_completed";
    "exploration_complete"; "lookup_complete"; "abandoned"; "blocked";
    "unclear" ].

(** [s.get("type") in tys] *)
Definition type_in (tys : list string) (s : FailureSignal) : bool :=
  match fs_type s with
  | Some t => mem t tys
  | None => false
  end.

(** The branch [if actual_outcome:] of [analyze_session]: a prior outcome
    is mapped to the expanded taxonomy. *)
Definition remap_outcome
    (actual_outcome : string) (issues : list string)
    (failure_signals : list FailureSignal) (completion_eval : CompletionEval)
    : string :=
  if String.eqb actual_outcome "completed" then
    if negb (is_nil issues) then "completed_with_issues" else "completed"
  else if String.eqb actual_outcome "had_issues" then
    let has_abandon_signal :=
      existsb (type_in ["quick_abandonment"; "user_frustration"])
              failure_signals in
    if has_abandon_signal then "abandoned"
    else if completed completion_eval then "completed_with_issues"
    else "partially_completed"
  else actual_outcome.

(** The [else:] branch of [analyze_session]: the outcome is derived from
    the analysis. *)
Definition fresh_outcome
    (task_type : string) (has_edits has_reads : bool)
    (duration : Q) (tool_calls user_msgs : Z) (tools_used : list string)
    (issues : list string) (failure_signals : list FailureSignal)
    (completion_eval : CompletionEval) (confidence : Confidence) : string :=
  let session_type :=
    classify_session_type duration tool_calls has_edits tools_used in
  let has_frustration := has_signal "user_frustration" failure_signals in
  if (score confidence >=? COMPLETION_CONFIDENCE_THRESHOLD)%Z then
    if negb (is_nil issues) then "completed_with_issues" else "completed"
  else if String.eqb task_type "exploration" && has_reads
          && (user_msgs >? 1)%Z then
    "exploration_complete"
  else if String.eqb session_type "lookup" && has_reads
          && (user_msgs >=? 1)%Z && negb has_frustration then
    "lookup_complete"
  else if String.eqb task_type "lookup" && has_reads
          && (user_msgs >=? 1)%Z && negb has_frustration then
    "lookup_complete"
  else if has_signal "quick_abandonment" failure_signals then "abandoned"
  else if has_frustration then "abandoned"
  else if String.eqb (completion_type completion_eval) "partially_completed"
  then "partially_completed"
  else if existsb (type_in ["error_in_commands"; "failed_git_commit"])
                  failure_signals then
    if Qgtb duration (inject_Z 10) && (tool_calls >? 20)%Z then "blocked"
    else "partially_completed"
  else "unclear".

(** [has_edits = "Edit" in tools_used or "Write" in tools_used] *)
Definition session_has_edits (s : Session) : bool :=
  mem "Edit" (tools_used s) || mem "Write" (tools_used s).

Definition session_has_reads (s : Session) : bool :=
  uses_read_tools (tools_used s).

(** The issues [analyze_session] works with: the reported ones when there
    are any, the detected ones otherwise. *)
Definition session_issues (s : Session) : option (list string) :=
  if negb (is_nil (orig_issues s))
  then Some (map (fun _ => "reported_issue") (orig_issues s))
  else detect_issues s.

(** [analyze_session], given the issues. *)
Definition analyze_with (issues : list string) (s : Session) : Analysis :=
  let prompts := initial_prompts s in
  let commands := commands_sample s in
  let tools_used := tools_used s in
  let files_touched := len (files_touched s) in
  let has_edits := session_has_edits s in
  let has_reads := session_has_reads s in
  let tool_calls := tool_call_count s in
  let user_msgs := user_messages s in
  let duration := or_zero (duration_minutes s) in
  let task_type :=
    or_else (orig_task_type s)
      (classify_task_type prompts commands tools_used
         (Some duration) (Some tool_calls) (Some has_edits)) in
  let git_ops := classify_git_operations commands in
  let failure_signals := detect_failure_signals s in
  let has_test_run := test_run commands in
  let completion_eval :=
    evaluate_task_completion task_type has_edits has_reads files_touched
      git_ops commands tools_used duration user_msgs failure_signals in
  let confidence :=
    calculate_completion_confidence task_type has_edits has_reads
      files_touched git_ops has_test_run failure_signals duration user_msgs
      completion_eval in
  let derived :=
    fresh_outcome task_type has_edits has_reads duration tool_calls
      user_msgs tools_used issues failure_signals completion_eval
      confidence in
  let outcome :=
    match prior_outcome s with
    | Some actual_outcome =>
        (* [if actual_outcome:] is false on the empty string *)
        if String.eqb actual_outcome "" then derived
        else remap_outcome actual_outcome issues failure_signals
               completion_eval
    | None => derived
    end in
  let likely :=
    (score confidence >=? COMPLETION_CONFIDENCE_THRESHOLD)%Z
    || mem outcome ["lookup_complete"; "exploration_complete"] in
  {| task_type := task_type;
     likely_completed := likely;
     outcome := outcome;
     confidence := confidence;
     completion := completion_eval;
     failure_signals := failure_signals;
     git_operations := git_ops;
     issues := issues |}.

(** [analyze_session]: [None] stands for the [TypeError] of
    [detect_issues] on a null duration. *)
Definition analyze_session (s : Session) : option Analysis :=
  match session_issues s with
  | None => None
  | Some issues => Some (analyze_with issues s)
  end.

(** [analysis_yields s P]: [analyze_session s] returns a result that
    satisfies [P]; the only session on which it raises instead has a null
    duration and no reported issues. *)
Definition analysis_yields (s : Session) (P : Analysis -> Prop) : Prop :=
  match analyze_session s with
  | Some r => P r
  | None => duration_minutes s = None /\ orig_issues s = []
  end.

(** ** Signal lists of the scorer *)

(** The sum of the deltas of a signal list. *)
Definition deltas (l : list (string * Z)) : Z :=
  fold_right (fun p acc => (snd p + acc)%Z) 0%Z l.

(** The entry a conditional step records. *)
Definition entry (c : bool) (name : string) (d : Z) : list (string * Z) :=
  if c then [(name, d)] else [].

(** The running score is the base 50 plus every delta recorded so far. *)
Definition balanced (t : Tally) : Prop :=
  t_score t = (50 + deltas (t_pos t) + deltas (t_neg t))%Z.

(** ** Sample sessions *)

Definition no_git : GitOps := classify_git_operations [].

(** A short read-only question. *)
Definition lookup_session : Session :=
  {| duration_minutes := Some (3 # 1);
     prior_outcome := None;
     user_messages := 1;
     tool_call_count := 4;
     total_turns := 2;
     tools_used := ["Read"; "Grep"];
     initial_prompts := ["hello there"];
     commands_sample := [];
     files_touched := [];
     orig_task_type := None;
     orig_issues := [] |}.

(** A notebook session: [NotebookEdit] without [Edit] or [Write]. *)
Definition notebook_session : Session :=
  {| duration_minutes := Some (3 # 1);
     prior_outcome := None;
     user_messages := 1;
     tool_call_count := 4;
     total_turns := 2;
     tools_used := ["Read"; "NotebookEdit"];
     initial_prompts := ["add a cell to the notebook"];
     commands_sample := [];
     files_touched := ["analysis.ipynb"];
     orig_task_type := None;
     orig_issues := [] |}.

(** A session of the report format that was reported as [had_issues]. *)
Definition legacy_session : Session :=
  {| duration_minutes := Some (12 # 1);
     prior_outcome := Some "had_issues";
     user_messages := 3;
     tool_call_count := 9;
     total_turns := 6;
     tools_used := ["Read"; "Edit"];
     initial_prompts := ["add a retry to the uploader"];
     commands_sample := [];
     files_touched := ["file"];
     orig_task_type := Some "feature";
     orig_issues := ["upload kept timing out"] |}.

(** Three commands of a session show an error pattern. *)
Definition failing_session : Session :=
  {| duration_minutes := Some (8 # 1);
     prior_outcome := None;
     user_messages := 2;
     tool_call_count := 6;
     total_turns := 4;
     tools_used := ["Bash"];
     initial_prompts := ["run the deployment script"];
     commands_sample :=
       [ "./deploy.sh  # error: missing token";
         "./deploy.sh  # permission denied";
         "./deploy.sh  # host not found" ];
     files_touched := [];
     orig_task_type := None;
     orig_issues := [] |}.

(** ** Validity filter *)

(** [is_valid_session]: a null or negative duration and a session without
    user messages are filtered out. *)
Definition is_valid_session (s : Session) : bool :=
  match duration_minutes s with
  | None => false
  | Some duration =>
      if Qltb duration (inject_Z 0) then false
      else if (user_messages s <=? 0)%Z then false
      else true
  end.

(** ** Duration histogram *)

(** The dict of [calculate_duration_histogram], one counter per bucket:
    "<1min", "1-5min", "5-15min", "15-30min", "30-60min", "60min+". *)
Record Histogram : Type := mkHistogram {
  under_1 : Z;
  from_1_to_5 : Z;
  from_5_to_15 : Z;
  from_15_to_30 : Z;
  from_30_to_60 : Z;
  over_60 : Z
}.

(** One iteration of [for d in durations]. *)
Definition histogram_step (h : Histogram) (d : Q) : Histogram :=
  if Qltb d (inject_Z 1) then
    mkHistogram (under_1 h + 1) (from_1_to_5 h) (from_5_to_15 h)
                (from_15_to_30 h) (from_30_to_60 h) (over_60 h)
  else if Qltb d (inject_Z 5) then
    mkHistogram (under_1 h) (from_1_to_5 h + 1) (from_5_to_15 h)
                (from_15_to_30 h) (from_30_to_60 h) (over_60 h)
  else if Qltb d (inject_Z 15) then
    mkHistogram (under_1 h) (from_1_to_5 h) (from_5_to_15 h + 1)
                (from_15_to_30 h) (from_30_to_60 h) (over_60 h)
  else if Qltb d (inject_Z 30) then
    mkHistogram (under_1 h) (from_1_to_5 h) (from_5_to_15 h)
                (from_15_to_30 h + 1) (from_30_to_60 h) (over_60 h)
  else if Qltb d (inject_Z 60) then
    mkHistogram (under_1 h) (from_1_to_5 h) (from_5_to_15 h)
                (from_15_to_30 h) (from_30_to_60 h + 1) (over_60 h)
  else
    mkHistogram (under_1 h) (from_1_to_5 h) (from_5_to_15 h)
                (from_15_to_30 h) (from_30_to_60 h) (over_60 h + 1).

Definition calculate_duration_histogram (durations : list Q) : Histogram :=
  fold_left histogram_step durations (mkHistogram 0 0 0 0 0 0).

(** The number of elements of [l] that satisfy [f]. *)
Definition count_if {A : Type} (f : A -> bool) (l : list A) : Z :=
  len (filter f l).

(** ** Success detector *)

(** [detect_successes]: the types of the successes found, in order. *)
Definition detect_successes (s : Session) : list string :=
  let tools_used := tools_used s in
  let code_changes :=
    if mem "Edit" tools_used || mem "Write" tools_used then
      if is_nil (files_touched s) then [] else ["code_changes"]
    else [] in
  let commands := commands_sample s in
  let build_commands :=
    filter (fun c => existsb (fun x => contains x (lower c))
                             ["build"; "test"; "npm"; "yarn"; "gradle"])
           commands in
  let build := if is_nil build_commands then [] else ["build_commands"] in
  let git_commands :=
    filter (fun c => contains "git" (lower c)) commands in
  let git := if is_nil git_commands then [] else ["git_operations"] in
  code_changes ++ build ++ git.

(** ** Sessions of the report format *)

(** A session of the [report_data] format, as [normalize_session] reads
    it: the top-level entries and those of [stats]. *)
Record ReportSession : Type := mkReportSession {
  rs_duration_minutes : option Q;
  rs_outcome : option string;
  rs_task_summary : option string;
  rs_task_type : option string;
  rs_issues : list string;
  rs_user_messages : Z;
  rs_assistant_messages : Z;
  rs_tool_calls : Z;
  rs_tools_used : list string;
  rs_files_touched : Z
}.

(** A loaded session with its format: [extract_sessions], which is the
    analysis format already, or one of the two report formats. *)
Inductive LoadedSession : Type :=
| Extracted (s : Session)
| Reported (rs : ReportSession).

(** [normalize_session]: a report session is rebuilt in the analysis
    format; its commands are not available, and its files are placeholders
    that keep the count. *)
Definition normalize_session (l : LoadedSession) : Session :=
  match l with
  | Extracted s => s
  | Reported rs =>
      {| duration_minutes := rs_duration_minutes rs;
         prior_outcome := rs_outcome rs;
         user_messages := rs_user_messages rs;
         tool_call_count := rs_tool_calls rs;
         total_turns := (rs_user_messages rs + rs_assistant_messages rs)%Z;
         tools_used := rs_tools_used rs;
         initial_prompts :=
           if truthy (rs_task_summary rs)
           then [or_else (rs_task_summary rs) ""] else [];
         commands_sample := [];
         files_touched := repeat "file" (Z.to_nat (rs_files_touched rs));
         orig_task_type := rs_task_type rs;
         orig_issues := rs_issues rs |}
  end.

(** ** JIRA ticket of a branch name *)



Definition upper_char (c : ascii) : ascii :=
  let n := nat_of_ascii c in
  if (97 <=? n)%nat && (n <=? 122)%nat then ascii_of_nat (n - 32) else c.

(** [s.upper()] *)
Fixpoint upper (s : string) : string :=
  match s with
  | EmptyString => EmptyString
  | String c s' => String (upper_char c) (upper s')
  end.





(** ** Aggregate report *)

(** The outcomes the aggregate report counts as successful. *)
Definition successful_outcomes : list string :=
  [ "completed"; "completed_with_issues"; "exploration_complete";
    "lookup_complete" ].

(** An entry of the list [generate_aggregate_report] receives: the result
    dict of [analyze_session], whose [metadata] and [statistics] are those
    of the session and whose other entries come from the analysis. *)
Record Analyzed : Type := mkAnalyzed {
  a_session : Session;
  a_result : Analysis
}.

(** A [defaultdict(int)] keyed by strings, in insertion order. *)
Definition Counter : Type := list (string * Z).

(** [counter[key] += 1] *)
Fixpoint incr (key : string) (c : Counter) : Counter :=
  match c with
  | [] => [(key, 1%Z)]
  | (k, v) :: c' =>
      if String.eqb k key then (k, (v + 1)%Z) :: c' else (k, v) :: incr key c'
  end.

(** [counter.get(key, 0)] *)
Fixpoint get_count (key : string) (c : Counter) : Z :=
  match c with
  | [] => 0%Z
  | (k, v) :: c' => if String.eqb k key then v else get_count key c'
  end.

(** The counters of [generate_aggregate_report] that are fed by the
    analysis: [summary.total_sessions], [valid_sessions] and
    [invalid_sessions], [sessions_completed], [sessions_with_edits],
    [sessions_with_commits], the two [count]s of [by_session_type],
    [by_outcome], [by_task_type] and the list [confidence_scores]. *)
Record Report : Type := mkReport {
  total_sessions : Z;
  valid_sessions : Z;
  invalid_sessions : Z;
  sessions_completed : Z;
  sessions_with_edits : Z;
  sessions_with_commits : Z;
  work_count : Z;
  lookup_count : Z;
  by_outcome : Counter;
  by_task_type : Counter;
  confidence_scores : list Z
}.

(** [task_analysis.get("outcome") or task_analysis.get("actual_outcome")
    or "unknown"]; both entries hold the outcome. *)
Definition reported_outcome (a : Analyzed) : string :=
  or_else (Some (outcome (a_result a))) "unknown".

(** The session type the report computes for an entry. *)
Definition reported_session_type (a : Analyzed) : string :=
  let s := a_session a in
  classify_session_type (or_zero (duration_minutes s)) (tool_call_count s)
    (session_has_edits s) (tools_used s).

(** One iteration of [for session in valid_sessions], for these
    counters.  [by_session_type] has the two keys "work" and "lookup",
    the only values [classify_session_type] returns. *)
Definition report_step (rep : Report) (a : Analyzed) : Report :=
  let s := a_session a in
  let r := a_result a in
  let has_edits := session_has_edits s in
  let session_type := reported_session_type a in
  let git_ops := git_operations r in
  {| total_sessions := total_sessions rep;
     valid_sessions := valid_sessions rep;
     invalid_sessions := invalid_sessions rep;
     sessions_completed :=
       if likely_completed r then (sessions_completed rep + 1)%Z
       else sessions_completed rep;
     sessions_with_edits :=
       if has_edits then (sessions_with_edits rep + 1)%Z
       else sessions_with_edits rep;
     sessions_with_commits :=
       if has_commit git_ops && negb (has_failed_commit git_ops)
       then (sessions_with_commits rep + 1)%Z
       else sessions_with_commits rep;
     work_count :=
       if String.eqb session_type "work" then (work_count rep + 1)%Z
       else work_count rep;
     lookup_count :=
       if String.eqb session_type "lookup" then (lookup_count rep + 1)%Z
       else lookup_count rep;
     by_outcome := incr (reported_outcome a) (by_outcome rep);
     by_task_type := incr (task_type r) (by_task_type rep);
     confidence_scores := confidence_scores rep ++ [score (confidence r)] |}.

Definition generate_aggregate_report (analyzed_sessions : list Analyzed)
    : Report :=
  let valid :=
    filter (fun a => is_valid_session (a_session a)) analyzed_sessions in
  let invalid_count := (len analyzed_sessions - len valid)%Z in
  fold_left report_step valid
    {| total_sessions := len analyzed_sessions;
       valid_sessions := len valid;
       invalid_sessions := invalid_count;
       sessions_completed := 0;
       sessions_with_edits := 0;
       sessions_with_commits := 0;
       work_count := 0;
       lookup_count := 0;
       by_outcome := [];
       by_task_type := [];
       confidence_scores := [] |}.

(** [sum(report["by_outcome"].get(outcome, 0)
         for outcome in successful_outcomes)] *)
Definition successful_count (rep : Report) : Z :=
  fold_right (fun o acc => (get_count o (by_outcome rep) + acc)%Z) 0%Z
             successful_outcomes.

(** The three counts of [completion_confidence]. *)
Definition high_confidence_count (rep : Report) : Z :=
  count_if (fun s => (s >=? 70)%Z) (confidence_scores rep).

Definition medium_confidence_count (rep : Report) : Z :=
  count_if (fun s => (40 <=? s)%Z && (s <? 70)%Z) (confidence_scores rep).

Definition low_confidence_count (rep : Report) : Z :=
  count_if (fun s => (s <? 40)%Z) (confidence_scores rep).

(** The entry the analysis of [s] contributes, when it succeeds. *)
Definition analyzed_entry (s : Session) : option Analyzed :=
  option_map (mkAnalyzed s) (analyze_session s).

(** ** Auxiliary notions for the properties *)

(** Putting the accumulators of two scans together. *)
Definition git_scan_merge (a b : GitScan) : GitScan :=
  {| gs_commands := gs_commands a ++ gs_commands b;
     gs_commit := gs_commit a || gs_commit b;
     gs_push := gs_push a || gs_push b;
     gs_add := gs_add a || gs_add b;
     gs_failed_commit := gs_failed_commit a || gs_failed_commit b;
     gs_commit_count := (gs_commit_count a + gs_commit_count b)%Z |}.

(** What the first loop of [classify_git_operations] keeps true. *)
Definition git_scan_ok (st : GitScan) : Prop :=
  (0 <= gs_commit_count st <= len (gs_commands st))%Z
  /\ (gs_commit st = true <-> (1 <= gs_commit_count st)%Z)
  /\ (gs_failed_commit st = true -> gs_commit st = true).

(** The signal a check of [detect_failure_signals] appends. *)
Definition signal_if (c : bool) (ty : string) (sev : Z) : list FailureSignal :=
  if c then [signal ty sev] else [].

(** The commands of a session that show an error pattern. *)
Definition error_commands (s : Session) : list string :=
  filter (fun cmd => Re.search_any error_patterns (lower cmd))
         (commands_sample s).

(** The seven types of failure signal. *)
Definition signal_types : list string :=
  [ "error_in_commands"; "high_retry_ratio"; "quick_abandonment";
    "read_without_edit"; "failed_git_commit"; "user_frustration";
    "no_tangible_output" ].

(** The eleven task types of [classify_task_type]. *)
Definition task_types : list string :=
  [ "bug_fix"; "testing"; "config"; "review"; "exploration"; "debug";
    "refactor"; "feature"; "update"; "lookup"; "general" ].

(** Forty tool calls for two user messages. *)
Definition busy_session : Session :=
  {| duration_minutes := Some (20 # 1);
     prior_outcome := None;
     user_messages := 2;
     tool_call_count := 40;
     total_turns := 4;
     tools_used := ["Read"; "Edit"];
     initial_prompts := ["port the parser to the new API"];
     commands_sample := [];
     files_touched := ["parser.py"];
     orig_task_type := None;
     orig_issues := [] |}.

(** A session whose only command is a commit that a hook rejected. *)
Definition failed_commit_session : Session :=
  {| duration_minutes := Some (12 # 1);
     prior_outcome := None;
     user_messages := 3;
     tool_call_count := 9;
     total_turns := 6;
     tools_used := ["Read"; "Edit"; "Bash"];
     initial_prompts := ["fix the login bug"];
     commands_sample := ["git commit -m 'fix' error: hook failed"];
     files_touched := ["login.py"];
     orig_task_type := None;
     orig_issues := [] |}.

(** A user who gives up on a short question. *)
Definition frustrated_session : Session :=
  {| duration_minutes := Some (3 # 1);
     prior_outcome := None;
     user_messages := 2;
     tool_call_count := 4;
     total_turns := 4;
     tools_used := ["Read"; "Grep"];
     initial_prompts := ["where is the retry logic"; "never mind"];
     commands_sample := [];
     files_touched := [];
     orig_task_type := None;
     orig_issues := [] |}.

(** The number of durations a histogram counts. *)
Definition histogram_total (h : Histogram) : Z :=
  (under_1 h + from_1_to_5 h + from_5_to_15 h + from_15_to_30 h
   + from_30_to_60 h + over_60 h)%Z.

(** [lo <= d < hi], a missing bound being no bound. *)
Definition in_bucket (lo hi : option Z) (d : Q) : bool :=
  match lo with Some a => negb (Qltb d (inject_Z a)) | None => true end
  && match hi with Some b => Qltb d (inject_Z b) | None => true end.

(** One for [true], zero for [false]. *)
Definition bump (c : bool) : Z := if c then 1%Z else 0%Z.




(** * Properties *)

(** ** Git operation classifier *)

Lemma git_scan_commands (commands : list string) (st : GitScan) :
  gs_commands (fold_left git_scan_step commands st)
  = gs_commands st
    ++ filter (fun cmd => contains "git" (lower cmd)) commands.
Proof.
  revert st; induction commands as [|cmd rest IH]; intro st; simpl.
  - now rewrite app_nil_r.
  - rewrite IH. unfold git_scan_step.
    destruct (contains "git" (lower cmd)); simpl.
    + now rewrite <- app_assoc.
    + reflexivity.
Qed.

(** The collected commands are those that contain "git", in order. *)
Lemma git_commands_collected (commands : list string) :
  git_commands (classify_git_operations commands)
  = filter (fun cmd => contains "git" (lower cmd)) commands.
Proof.
  unfold classify_git_operations; simpl.
  now rewrite git_scan_commands.
Qed.

(** C9: [read_only] is false whenever no git command was collected;
    equivalently, when [read_only] is true the list [git_commands] is not
    empty, and each of its commands matches a read-only pattern. *)
Theorem read_only_requires_git_command (commands : list string) :
  let ops := classify_git_operations commands in
  (git_commands ops = [] -> read_only ops = false)
  /\ (read_only ops = true ->
      git_commands ops <> []
      /\ forall cmd, In cmd (git_commands ops) -> is_read_only cmd = true).
Proof.
  unfold classify_git_operations; cbn [git_commands read_only].
  destruct (gs_commands (fold_left git_scan_step commands git_scan_init))
    as [|c cs] eqn:E; cbn [is_nil].
  - split; [reflexivity | discriminate].
  - split; [discriminate |].
    intro H; split; [discriminate |].
    now apply forallb_forall.
Qed.

Lemma read_only_requires_git_command_witness :
  read_only (classify_git_operations ["ls -la"; "git status"; "git log -3"])
  = true
  /\ git_commands (classify_git_operations ["ls -la"; "git status"; "git log -3"])
     <> []
  /\ read_only (classify_git_operations ["ls -la"; "cat README.md"]) = false.
Proof.
  split; [vm_compute; reflexivity |].
  split.
  - apply (read_only_requires_git_command
             ["ls -la"; "git status"; "git log -3"]).
    vm_compute; reflexivity.
  - apply (read_only_requires_git_command ["ls -la"; "cat README.md"]).
    vm_compute; reflexivity.
Defined.

(** ** Confidence scorer *)

Lemma clamp_assess (x : Z) :
  let sc := Z.max 0 (Z.min 100 x) in
  (0 <= sc <= 100)%Z
  /\ (assess sc = "high" <-> (sc >= 70)%Z)
  /\ (assess sc = "medium" <-> (40 <= sc <= 69)%Z)
  /\ (assess sc = "low" <-> (sc < 40)%Z).
Proof.
  intro sc. assert (Hb : (0 <= sc <= 100)%Z) by (subst sc; lia).
  clearbody sc. unfold assess.
  destruct (sc >=? 70)%Z eqn:E70; [| destruct (sc >=? 40)%Z eqn:E40];
    repeat split; intros; try discriminate; try reflexivity; try lia.
Qed.

(** C2: whatever the inputs, the score is an integer between 0 and 100,
    and the assessment is "high" exactly when the score is at least 70,
    "medium" exactly when it is between 40 and 69, "low" exactly when it is
    below 40. *)
Theorem confidence_score_clamped
    (task_type : string) (has_edits has_reads : bool) (files_touched : Z)
    (git_ops : GitOps) (has_test_run : bool)
    (failure_signals : list FailureSignal) (duration : Q) (user_msgs : Z)
    (completion_eval : CompletionEval) :
  let c := calculate_completion_confidence task_type has_edits has_reads
             files_touched git_ops has_test_run failure_signals duration
             user_msgs completion_eval in
  (0 <= score c <= 100)%Z
  /\ (assessment c = "high" <-> (score c >= 70)%Z)
  /\ (assessment c = "medium" <-> (40 <= score c <= 69)%Z)
  /\ (assessment c = "low" <-> (score c < 40)%Z).
Proof.
  unfold calculate_completion_confidence; cbv zeta;
    cbn [score assessment].
  apply clamp_assess.
Qed.

(** ** Task-type classifier *)

(** C3: the keyword lists are tried in a fixed order with bug_fix first: a
    prompt text whose joined lowercased form contains a bug_fix keyword and
    a testing keyword is classified "bug_fix", not "testing". *)
Theorem bug_fix_checked_before_testing
    (prompts commands tools : list string)
    (duration : option Q) (tool_calls : option Z) (has_edits : option bool) :
  any_in bug_fix_words (all_text prompts) = true ->
  any_in testing_words (all_text prompts) = true ->
  classify_task_type prompts commands tools duration tool_calls has_edits
  = "bug_fix"
  /\ classify_task_type prompts commands tools duration tool_calls has_edits
     <> "testing".
Proof.
  intros Hbug _.
  assert (E : classify_task_type prompts commands tools duration tool_calls
                has_edits = "bug_fix").
  { unfold classify_task_type; cbv zeta. now rewrite Hbug. }
  rewrite E; split; [reflexivity | discriminate].
Qed.

Lemma bug_fix_checked_before_testing_witness :
  contains "bug" (all_text ["There is a BUG in the login Test"]) = true
  /\ contains "test" (all_text ["There is a BUG in the login Test"]) = true
  /\ classify_task_type ["There is a BUG in the login Test"] [] []
       None None None = "bug_fix".
Proof.
  split; [vm_compute; reflexivity |].
  split; [vm_compute; reflexivity |].
  apply (bug_fix_checked_before_testing
           ["There is a BUG in the login Test"] [] [] None None None);
    vm_compute; reflexivity.
Defined.

(** ** Completion evaluator *)

(** The returned flag is the type-specific verdict, unless a signal of
    severity 2 or more is present. *)
Lemma completed_after_downgrade
    (task_type : string) (has_edits has_reads : bool) (files_touched : Z)
    (git_ops : GitOps) (commands tools_used : list string)
    (duration : Q) (user_msgs : Z) (failure_signals : list FailureSignal) :
  completed (evaluate_task_completion task_type has_edits has_reads
               files_touched git_ops commands tools_used duration user_msgs
               failure_signals)
  = snd (type_specific task_type has_edits has_reads files_touched git_ops
           commands tools_used duration user_msgs)
    && negb (high_severity_failure failure_signals).
Proof.
  unfold evaluate_task_completion.
  destruct (type_specific _ _ _ _ _ _ _ _ _) as [cr c]; cbn [snd].
  destruct c, (high_severity_failure failure_signals); reflexivity.
Qed.

Lemma high_severity_failure_true (signals : list FailureSignal) :
  high_severity_failure signals = true <->
  exists sg v, In sg signals /\ fs_severity sg = Some v /\ (2 <= v)%Z.
Proof.
  unfold high_severity_failure; rewrite existsb_exists; split.
  - intros [sg [Hin Hsev]]. unfold severity_or in Hsev.
    destruct (fs_severity sg) as [v|] eqn:E; [| discriminate].
    exists sg, v; repeat split; auto; lia.
  - intros [sg [v [Hin [E Hv]]]]. exists sg; split; auto.
    unfold severity_or; rewrite E; lia.
Qed.

(** C4, as the code has it: for "feature" the returned flag is
    [has_edits AND files_touched > 0], for "refactor"
    [has_edits AND files_touched > 1], each only as long as no failure
    signal has severity 2 or more.  With edits and exactly one file touched,
    "feature" is completed exactly when no such signal is present, and
    "refactor" is not completed. *)
Theorem feature_refactor_completion
    (has_reads : bool) (git_ops : GitOps) (commands tools_used : list string)
    (duration : Q) (user_msgs : Z) (failure_signals : list FailureSignal) :
  let eval task_type has_edits files_touched :=
    completed (evaluate_task_completion task_type has_edits has_reads
                 files_touched git_ops commands tools_used duration
                 user_msgs failure_signals) in
  (forall has_edits files_touched,
      eval "feature" has_edits files_touched
      = has_edits && (files_touched >? 0)%Z
        && negb (high_severity_failure failure_signals))
  /\ (forall has_edits files_touched,
      eval "refactor" has_edits files_touched
      = has_edits && (files_touched >? 1)%Z
        && negb (high_severity_failure failure_signals))
  /\ eval "feature" true 1%Z = negb (high_severity_failure failure_signals)
  /\ eval "refactor" true 1%Z = false.
Proof.
  cbv zeta; repeat split; intros;
    rewrite completed_after_downgrade; reflexivity.
Qed.

(** C4 as stated fails: a "feature" session with edits and one file
    touched is not completed when a signal of severity 2 is present. *)
Lemma feature_completion_counterexample :
  let has_edits := true in
  let files_touched := 1%Z in
  completed (evaluate_task_completion "feature" has_edits true files_touched
               no_git [] ["Read"; "Edit"] (inject_Z 1) 1
               [signal "quick_abandonment" 2])
  <> has_edits && (files_touched >? 0)%Z.
Proof. vm_compute; discriminate. Qed.

(** C5: when the type-specific rules say completed but some failure signal
    has severity 2 or more, the evaluator returns [completed = false] and
    lists "failure_signals_detected" among the missing criteria, whatever
    the task type. *)
Theorem high_severity_overrides_completion
    (task_type : string) (has_edits has_reads : bool) (files_touched : Z)
    (git_ops : GitOps) (commands tools_used : list string)
    (duration : Q) (user_msgs : Z) (failure_signals : list FailureSignal) :
  snd (type_specific task_type has_edits has_reads files_touched git_ops
         commands tools_used duration user_msgs) = true ->
  (exists sg v, In sg failure_signals /\ fs_severity sg = Some v /\ (2 <= v)%Z) ->
  let e := evaluate_task_completion task_type has_edits has_reads
             files_touched git_ops commands tools_used duration user_msgs
             failure_signals in
  completed e = false /\ In "failure_signals_detected" (criteria_missing e).
Proof.
  intros Hc Hsev. apply high_severity_failure_true in Hsev.
  unfold evaluate_task_completion.
  destruct (type_specific _ _ _ _ _ _ _ _ _) as [cr c]; cbn [snd] in Hc.
  subst c; rewrite Hsev; cbn.
  split; [reflexivity |].
  apply in_or_app; right; left; reflexivity.
Qed.

(** A bug fix with edits whose commit failed: the commit counts as
    verification, and the failed-commit signal takes the completion back. *)
Lemma high_severity_overrides_completion_witness :
  let commands := ["git commit -m 'fix' error: hook failed"] in
  let git_ops := classify_git_operations commands in
  let e := evaluate_task_completion "bug_fix" true true 1 git_ops commands
             ["Read"; "Edit"; "Bash"] (inject_Z 12) 3
             [signal "failed_git_commit" 2] in
  has_commit git_ops = true /\ has_failed_commit git_ops = true
  /\ completed e = false /\ In "failure_signals_detected" (criteria_missing e).
Proof.
  cbv zeta.
  split; [vm_compute; reflexivity |].
  split; [vm_compute; reflexivity |].
  apply (high_severity_overrides_completion "bug_fix" true true 1
           (classify_git_operations ["git commit -m 'fix' error: hook failed"])
           ["git commit -m 'fix' error: hook failed"]
           ["Read"; "Edit"; "Bash"] (inject_Z 12) 3
           [signal "failed_git_commit" 2]).
  - vm_compute; reflexivity.
  - exists (signal "failed_git_commit" 2), 2%Z.
    split; [left; reflexivity |]. split; [reflexivity | lia].
Defined.

(** ** The tally of the confidence scorer *)

Lemma deltas_app (l1 l2 : list (string * Z)) :
  deltas (l1 ++ l2) = (deltas l1 + deltas l2)%Z.
Proof. induction l1 as [|p l1 IH]; simpl; [reflexivity | rewrite IH; lia]. Qed.

Lemma deltas_single (name : string) (d : Z) : deltas [(name, d)] = d.
Proof. unfold deltas; cbn [fold_right snd]; lia. Qed.

Lemma t_neg_gain c name d t : t_neg (gain c name d t) = t_neg t.
Proof. unfold gain; destruct c; reflexivity. Qed.

Lemma t_neg_lose c name d t :
  t_neg (lose c name d t) = t_neg t ++ entry c name (- d).
Proof. unfold lose, entry; destruct c; simpl; [| rewrite app_nil_r]; reflexivity. Qed.

Lemma t_pos_gain c name d t :
  t_pos (gain c name d t) = t_pos t ++ entry c name d.
Proof. unfold gain, entry; destruct c; simpl; [| rewrite app_nil_r]; reflexivity. Qed.

Lemma t_pos_lose c name d t : t_pos (lose c name d t) = t_pos t.
Proof. unfold lose; destruct c; reflexivity. Qed.

Lemma balanced_gain c name d t : balanced t -> balanced (gain c name d t).
Proof.
  unfold balanced, gain; destruct c; cbn [t_score t_pos t_neg]; auto.
  intro H; rewrite H, deltas_app, deltas_single; lia.
Qed.

Lemma balanced_lose c name d t : balanced t -> balanced (lose c name d t).
Proof.
  unfold balanced, lose; destruct c; cbn [t_score t_pos t_neg]; auto.
  intro H; rewrite H, deltas_app, deltas_single; lia.
Qed.

Create HintDb tally.
#[local] Hint Resolve balanced_gain balanced_lose : tally.

Ltac split_ifs :=
  repeat match goal with
         | |- context [if ?b then gain _ _ _ _ else _] => destruct b
         end.

(** The score is the clamped sum of the base and the recorded deltas. *)
Lemma score_is_clamped_sum
    (task_type : string) (has_edits has_reads : bool) (files_touched : Z)
    (git_ops : GitOps) (has_test_run : bool)
    (failure_signals : list FailureSignal) (duration : Q) (user_msgs : Z)
    (completion_eval : CompletionEval) :
  let c := calculate_completion_confidence task_type has_edits has_reads
             files_touched git_ops has_test_run failure_signals duration
             user_msgs completion_eval in
  score c
  = Z.max 0 (Z.min 100 (50 + deltas (positive_signals c)
                           + deltas (negative_signals c))).
Proof.
  unfold calculate_completion_confidence; cbv zeta;
    cbn [score positive_signals negative_signals].
  match goal with
  | |- Z.max 0 (Z.min 100 (t_score ?t)) = _ =>
      assert (H : balanced t); [| rewrite H; reflexivity]
  end.
  assert (H0 : balanced (mkTally 50 [] [])) by reflexivity.
  split_ifs; auto 30 with tally.
Qed.

(** The negative signals, one optional entry per check, in order. *)
Lemma negative_signals_entries
    (task_type : string) (has_edits has_reads : bool) (files_touched : Z)
    (git_ops : GitOps) (has_test_run : bool)
    (failure_signals : list FailureSignal) (duration : Q) (user_msgs : Z)
    (completion_eval : CompletionEval) :
  negative_signals
    (calculate_completion_confidence task_type has_edits has_reads
       files_touched git_ops has_test_run failure_signals duration
       user_msgs completion_eval)
  = entry (negb (is_nil (error_signals failure_signals)))
          "errors_detected" (- error_penalty failure_signals)
    ++ entry (has_failed_commit git_ops) "failed_commit" (-15)
    ++ entry (has_signal "high_retry_ratio" failure_signals)
             "high_retry_ratio" (-15)
    ++ entry (has_signal "user_frustration" failure_signals)
             "user_frustration" (-20)
    ++ entry (has_signal "quick_abandonment" failure_signals)
             "quick_abandonment" (-20)
    ++ entry (has_signal "no_tangible_output" failure_signals)
             "no_tangible_output" (-10)
    ++ entry (len (criteria_missing completion_eval)
              >? len (criteria_met completion_eval))%Z
             "criteria_missing" (-10).
Proof.
  unfold calculate_completion_confidence; cbv zeta; cbn [negative_signals].
  assert (Hgt : forall a b : Z, (a >? b)%Z = true -> (b >? a)%Z = false)
    by (intros a b; rewrite !Z.gtb_ltb, Z.ltb_lt, Z.ltb_ge; lia).
  destruct (len (criteria_met completion_eval)
            >? len (criteria_missing completion_eval))%Z eqn:E;
    [rewrite (Hgt _ _ E) |];
    split_ifs;
    repeat (rewrite ?t_neg_gain, ?t_neg_lose); cbn [t_neg];
    repeat rewrite <- app_assoc; cbn [app entry]; rewrite ?app_nil_r;
    reflexivity.
Qed.

Lemma in_entry (c : bool) (name : string) (d : Z) (x : string * Z) :
  In x (entry c name d) <-> c = true /\ x = (name, d).
Proof.
  unfold entry; destruct c; simpl; split.
  - intros [H | []]; auto.
  - intros [_ H]; auto.
  - intros [].
  - intros [H _]; discriminate.
Qed.

(** C8, as the code has it: the adjustment recorded under
    "errors_detected" is minus [min(20, sum of 5 * severity)] over the
    signals of type error_in_commands (a signal without a severity counts
    for 1); it is recorded exactly when there is such a signal, and the
    score is the base 50 plus all recorded deltas, clamped. *)
Theorem error_penalty_weighs_severity
    (task_type : string) (has_edits has_reads : bool) (files_touched : Z)
    (git_ops : GitOps) (has_test_run : bool)
    (failure_signals : list FailureSignal) (duration : Q) (user_msgs : Z)
    (completion_eval : CompletionEval) :
  let c := calculate_completion_confidence task_type has_edits has_reads
             files_touched git_ops has_test_run failure_signals duration
             user_msgs completion_eval in
  let errors := filter (type_is "error_in_commands") failure_signals in
  let penalty :=
    Z.min 20 (fold_right (fun s acc => (severity_or 1 s * 5 + acc)%Z) 0%Z
                         errors) in
  (forall d, In ("errors_detected", d) (negative_signals c)
             <-> errors <> [] /\ d = (- penalty)%Z)
  /\ score c = Z.max 0 (Z.min 100 (50 + deltas (positive_signals c)
                                     + deltas (negative_signals c))).
Proof.
  cbv zeta; split; [| apply score_is_clamped_sum].
  intro d. rewrite negative_signals_entries.
  fold (error_signals failure_signals).
  change (Z.min 20 _) with (error_penalty failure_signals).
  repeat rewrite in_app_iff. repeat rewrite in_entry.
  split.
  - intros [[Hc He] | H].
    + split; [| congruence].
      destruct (error_signals failure_signals); [discriminate | discriminate].
    + repeat destruct H as [[_ H] | H]; try discriminate.
      destruct H as [_ H]; discriminate.
  - intros [Hne Hd]; left; subst d; split; [| reflexivity].
    destruct (error_signals failure_signals); [contradiction | reflexivity].
Qed.

Lemma error_penalty_weighs_severity_witness :
  let signals := detect_failure_signals failing_session in
  let c := calculate_completion_confidence "general" false false 0 no_git
             false signals (inject_Z 8) 2
             (evaluate_task_completion "general" false false 0 no_git
                (commands_sample failing_session) ["Bash"] (inject_Z 8) 2
                signals) in
  In ("errors_detected", (-15)%Z) (negative_signals c).
Proof.
  cbv zeta.
  destruct (error_penalty_weighs_severity "general" false false 0 no_git false
              (detect_failure_signals failing_session) (inject_Z 8) 2
              (evaluate_task_completion "general" false false 0 no_git
                 (commands_sample failing_session) ["Bash"] (inject_Z 8) 2
                 (detect_failure_signals failing_session)))
    as [Hentry _].
  apply (proj2 (Hentry (-15)%Z)).
  split; [vm_compute; discriminate | vm_compute; reflexivity].
Defined.

(** C8 as stated fails: one error_in_commands signal of severity 3, as
    the detector emits for three failing commands, costs 15 points, not
    [min(20, 5 * 1)]. *)
Lemma error_penalty_counterexample :
  let signals := detect_failure_signals failing_session in
  let c := calculate_completion_confidence "general" false false 0 no_git
             false signals (inject_Z 8) 2
             (evaluate_task_completion "general" false false 0 no_git
                (commands_sample failing_session) ["Bash"] (inject_Z 8) 2
                signals) in
  signals = [signal "error_in_commands" 3]
  /\ negative_signals c = [("errors_detected", (-15)%Z)]
  /\ score c = 35%Z
  /\ (15 <> Z.min 20 (5 * len (error_signals signals)))%Z.
Proof. vm_compute; repeat split; discriminate. Qed.

(** ** Outcome resolver *)

Lemma mem_In (x : string) (l : list string) : mem x l = true <-> In x l.
Proof.
  unfold mem; rewrite existsb_exists; split.
  - intros [y [Hin Heq]]. apply String.eqb_eq in Heq; now subst.
  - intro Hin; exists x; split; [assumption | apply String.eqb_refl].
Qed.

(** Every branch of the derivation ladder ends in one of the eight labels. *)
Lemma fresh_outcome_label
    (task_type : string) (has_edits has_reads : bool)
    (duration : Q) (tool_calls user_msgs : Z) (tools_used : list string)
    (issues : list string) (failure_signals : list FailureSignal)
    (completion_eval : CompletionEval) (confidence : Confidence) :
  In (fresh_outcome task_type has_edits has_reads duration tool_calls
        user_msgs tools_used issues failure_signals completion_eval
        confidence)
     outcome_labels.
Proof.
  unfold fresh_outcome; cbv zeta.
  repeat match goal with
         | |- context [if ?b then _ else _] => destruct b
         end;
    unfold outcome_labels; simpl; tauto.
Qed.

(** [analyze_session] raises only on a null duration without reported
    issues. *)
Lemma session_issues_none (s : Session) :
  session_issues s = None -> duration_minutes s = None /\ orig_issues s = [].
Proof.
  unfold session_issues, detect_issues.
  destruct (orig_issues s); cbn [is_nil negb]; [| discriminate].
  destruct (duration_minutes s); [discriminate | auto].
Qed.

(** With a duration or reported issues, [analyze_session] returns. *)
Lemma analyze_session_defined (s : Session) :
  duration_minutes s <> None \/ orig_issues s <> [] ->
  exists r, analyze_session s = Some r.
Proof.
  intro H; unfold analyze_session.
  destruct (session_issues s) as [iss|] eqn:E; [eauto |].
  apply session_issues_none in E; destruct E, H; contradiction.
Qed.

Lemma analysis_yields_intro (s : Session) (P : Analysis -> Prop) :
  (forall issues, session_issues s = Some issues -> P (analyze_with issues s)) ->
  analysis_yields s P.
Proof.
  intro H; unfold analysis_yields, analyze_session.
  destruct (session_issues s) as [issues|] eqn:E.
  - now apply H.
  - now apply session_issues_none.
Qed.

(** The outcome of the result, by the two branches of the resolver. *)
Lemma outcome_of_analysis (issues : list string) (s : Session) :
  let r := analyze_with issues s in
  outcome r
  = match prior_outcome s with
    | Some actual_outcome =>
        if String.eqb actual_outcome ""
        then fresh_outcome (task_type r) (session_has_edits s)
               (session_has_reads s) (or_zero (duration_minutes s))
               (tool_call_count s) (user_messages s) (tools_used s) issues
               (failure_signals r) (completion r) (confidence r)
        else remap_outcome actual_outcome issues (failure_signals r)
               (completion r)
    | None =>
        fresh_outcome (task_type r) (session_has_edits s)
          (session_has_reads s) (or_zero (duration_minutes s))
          (tool_call_count s) (user_messages s) (tools_used s) issues
          (failure_signals r) (completion r) (confidence r)
    end.
Proof. reflexivity. Qed.

(** C1: for a session without an authoritative prior outcome, the outcome
    of the analysis is one of the eight labels. *)
Theorem fresh_outcome_enumerated (s : Session) :
  truthy (prior_outcome s) = false ->
  analysis_yields s (fun r => In (outcome r) outcome_labels).
Proof.
  intro Hprior; apply analysis_yields_intro; intros issues _.
  rewrite outcome_of_analysis.
  destruct (prior_outcome s) as [a|]; [| apply fresh_outcome_label].
  cbn [truthy] in Hprior.
  destruct (String.eqb a ""); [apply fresh_outcome_label | discriminate].
Qed.

Lemma fresh_outcome_enumerated_witness :
  option_map outcome (analyze_session lookup_session) = Some "lookup_complete"
  /\ analysis_yields lookup_session (fun r => In (outcome r) outcome_labels).
Proof.
  split; [vm_compute; reflexivity |].
  apply (fresh_outcome_enumerated lookup_session); reflexivity.
Defined.

(** C6: [likely_completed] holds exactly when the confidence score reaches
    the threshold 60 or the outcome is "lookup_complete" or
    "exploration_complete". *)
Theorem likely_completed_iff (s : Session) :
  analysis_yields s (fun r =>
    likely_completed r = true <->
    (score (confidence r) >= 60)%Z
    \/ outcome r = "lookup_complete"
    \/ outcome r = "exploration_complete").
Proof.
  apply analysis_yields_intro; intros issues _.
  set (r := analyze_with issues s).
  change (likely_completed r)
    with ((score (confidence r) >=? COMPLETION_CONFIDENCE_THRESHOLD)%Z
          || mem (outcome r) ["lookup_complete"; "exploration_complete"]).
  clearbody r; unfold COMPLETION_CONFIDENCE_THRESHOLD.
  rewrite orb_true_iff, mem_In, Z.geb_le; cbn [In].
  split.
  - intros [H | [H | [H | []]]]; [left; lia | right; left | right; right];
      now symmetry.
  - intros [H | [H | H]]; [left; lia | right; left | right; right; left];
      now symmetry.
Qed.

Lemma existsb_orb {A : Type} (f g : A -> bool) (l : list A) :
  existsb (fun x => f x || g x) l = existsb f l || existsb g l.
Proof.
  induction l as [|x l IH]; [reflexivity |].
  cbn [existsb]; rewrite IH.
  destruct (f x), (g x), (existsb f l), (existsb g l); reflexivity.
Qed.

Lemma type_in_two (a b : string) (sg : FailureSignal) :
  type_in [a; b] sg = type_is a sg || type_is b sg.
Proof.
  unfold type_in, type_is, mem; destruct (fs_type sg) as [t|];
    [| reflexivity].
  cbn [existsb]; rewrite orb_false_r; reflexivity.
Qed.

(** The test for an abandonment signal looks for either type. *)
Lemma abandon_signal_either (signals : list FailureSignal) :
  existsb (type_in ["quick_abandonment"; "user_frustration"]) signals
  = has_signal "quick_abandonment" signals
    || has_signal "user_frustration" signals.
Proof.
  unfold has_signal; rewrite <- existsb_orb.
  induction signals as [|sg l IH]; [reflexivity |].
  cbn [existsb]; now rewrite IH, type_in_two.
Qed.

Lemma remap_outcome_cases
    (prior : string) (issues : list string)
    (signals : list FailureSignal) (completion_eval : CompletionEval) :
  let o := remap_outcome prior issues signals completion_eval in
  (prior = "completed" ->
   o = if is_nil issues then "completed" else "completed_with_issues")
  /\ (prior = "had_issues" ->
      o = if has_signal "quick_abandonment" signals
             || has_signal "user_frustration" signals
          then "abandoned"
          else if completed completion_eval then "completed_with_issues"
          else "partially_completed")
  /\ (prior <> "completed" -> prior <> "had_issues" -> o = prior).
Proof.
  unfold remap_outcome; cbv zeta; rewrite abandon_signal_either.
  repeat split.
  - intros ->; rewrite String.eqb_refl. destruct issues; reflexivity.
  - intros ->; reflexivity.
  - intros H1 H2.
    apply String.eqb_neq in H1; apply String.eqb_neq in H2.
    now rewrite H1, H2.
Qed.

(** C7: a prior "completed" becomes "completed_with_issues" when there are
    issues and stays "completed" otherwise; a prior "had_issues" becomes
    "abandoned" when a quick_abandonment or user_frustration signal is
    present, otherwise "completed_with_issues" or "partially_completed" by
    the evaluator's flag; any other prior value is the outcome. *)
Theorem prior_outcome_remapped (s : Session) (prior : string) :
  prior_outcome s = Some prior ->
  prior <> "" ->
  analysis_yields s (fun r =>
    (prior = "completed" ->
     outcome r = if is_nil (issues r) then "completed"
                 else "completed_with_issues")
    /\ (prior = "had_issues" ->
        outcome r =
          if has_signal "quick_abandonment" (failure_signals r)
             || has_signal "user_frustration" (failure_signals r)
          then "abandoned"
          else if completed (completion r) then "completed_with_issues"
          else "partially_completed")
    /\ (prior <> "completed" -> prior <> "had_issues" -> outcome r = prior)).
Proof.
  intros Hprior Hne; apply analysis_yields_intro; intros iss _.
  rewrite outcome_of_analysis, Hprior.
  apply String.eqb_neq in Hne; rewrite Hne.
  change (issues (analyze_with iss s)) with iss.
  apply remap_outcome_cases.
Qed.

Lemma prior_outcome_remapped_witness :
  option_map outcome (analyze_session legacy_session)
  = Some "completed_with_issues".
Proof.
  generalize (prior_outcome_remapped legacy_session "had_issues"
                eq_refl ltac:(discriminate)).
  unfold analysis_yields.
  destruct (analyze_session legacy_session) as [r|] eqn:E.
  - intros [_ [H _]]. cbn [option_map]. rewrite (H eq_refl).
    injection E as <-. vm_compute. reflexivity.
  - vm_compute in E; discriminate.
Defined.

(** ** Edits through NotebookEdit *)

(** The positive signals, one optional entry per check, in order. *)
Lemma positive_signals_entries
    (task_type : string) (has_edits has_reads : bool) (files_touched : Z)
    (git_ops : GitOps) (has_test_run : bool)
    (failure_signals : list FailureSignal) (duration : Q) (user_msgs : Z)
    (completion_eval : CompletionEval) :
  let exploring :=
    String.eqb task_type "exploration" && Qgtb duration (inject_Z 3) in
  let reading :=
    String.eqb task_type "exploration" && has_reads && negb has_edits in
  positive_signals
    (calculate_completion_confidence task_type has_edits has_reads
       files_touched git_ops has_test_run failure_signals duration
       user_msgs completion_eval)
  = entry has_edits "has_edits" 15
    ++ entry (has_commit git_ops && negb (has_failed_commit git_ops))
             "successful_commit" 20
    ++ entry (has_push git_ops) "git_push" 10
    ++ entry has_test_run "tests_ran" 15
    ++ entry (files_touched >? 0)%Z "files_touched" 10
    ++ entry ((files_touched >? 0)%Z && (files_touched >? 3)%Z)
             "multiple_files" 5
    ++ entry exploring "exploration_time" 5
    ++ entry (negb exploring
              && (mem task_type ["bug_fix"; "feature"; "refactor"]
                  && Qgtb duration (inject_Z 10)))
             "sufficient_work_time" 5
    ++ entry (user_msgs >? 2)%Z "user_engagement" 5
    ++ entry reading "exploration_reads_ok" 10
    ++ entry (negb reading
              && (String.eqb task_type "debug" && has_reads
                  && Qgtb duration (inject_Z 5)))
             "debug_investigation" 10
    ++ entry (len (criteria_met completion_eval)
              >? len (criteria_missing completion_eval))%Z
             "criteria_met" 10.
Proof.
  unfold calculate_completion_confidence; cbv zeta; cbn [positive_signals].
  split_ifs;
    repeat (rewrite ?t_pos_gain, ?t_pos_lose); cbn [t_pos negb andb];
    repeat rewrite <- app_assoc; cbn [app entry]; rewrite ?app_nil_r;
    reflexivity.
Qed.

(** Without edits the evaluator never records "has_edits" as met, and the
    three task types that require edits are not completed. *)
Lemma completion_without_edits
    (task_type : string) (has_reads : bool) (files_touched : Z)
    (git_ops : GitOps) (commands tools_used : list string)
    (duration : Q) (user_msgs : Z) (failure_signals : list FailureSignal) :
  let e := evaluate_task_completion task_type false has_reads files_touched
             git_ops commands tools_used duration user_msgs
             failure_signals in
  ~ In "has_edits" (criteria_met e)
  /\ (In task_type ["bug_fix"; "feature"; "refactor"] ->
      completed e = false /\ In "has_edits" (criteria_missing e)).
Proof.
  cbv zeta; split.
  - unfold evaluate_task_completion, type_specific; cbv zeta.
    repeat match goal with
           | |- context [if String.eqb task_type ?x then _ else _] =>
               destruct (String.eqb task_type x)
           end;
      unfold check, note;
      repeat match goal with
             | |- context [if ?b then _ else _] => destruct b
             end;
      cbn; intuition discriminate.
  - intros [<- | [<- | [<- | []]]];
      unfold evaluate_task_completion, type_specific, check; cbn;
      repeat match goal with
             | |- context [if ?b then _ else _] => destruct b
             end;
      cbn; auto.
Qed.

(** Without edits no "has_edits" bonus is recorded. *)
Lemma no_bonus_without_edits
    (task_type : string) (has_reads : bool) (files_touched : Z)
    (git_ops : GitOps) (has_test_run : bool)
    (failure_signals : list FailureSignal) (duration : Q) (user_msgs : Z)
    (completion_eval : CompletionEval) (d : Z) :
  ~ In ("has_edits", d)
       (positive_signals
          (calculate_completion_confidence task_type false has_reads
             files_touched git_ops has_test_run failure_signals duration
             user_msgs completion_eval)).
Proof.
  rewrite positive_signals_entries; cbv zeta.
  repeat rewrite in_app_iff. repeat rewrite in_entry.
  intro H.
  repeat (destruct H as [[Hc H] | H];
          [try discriminate Hc; try discriminate H |]).
  destruct H as [_ H]; discriminate H.
Qed.

(** The evaluator and the scorer are run on the values [analyze_session]
    computes from the record. *)
Lemma completion_of_analysis (issues : list string) (s : Session) :
  let r := analyze_with issues s in
  completion r
  = evaluate_task_completion (task_type r) (session_has_edits s)
      (session_has_reads s) (len (files_touched s))
      (classify_git_operations (commands_sample s)) (commands_sample s)
      (tools_used s) (or_zero (duration_minutes s)) (user_messages s)
      (detect_failure_signals s).
Proof. reflexivity. Qed.

Lemma confidence_of_analysis (issues : list string) (s : Session) :
  let r := analyze_with issues s in
  confidence r
  = calculate_completion_confidence (task_type r) (session_has_edits s)
      (session_has_reads s) (len (files_touched s))
      (classify_git_operations (commands_sample s))
      (test_run (commands_sample s)) (detect_failure_signals s)
      (or_zero (duration_minutes s)) (user_messages s) (completion r).
Proof. reflexivity. Qed.

Lemma mem_false (x : string) (l : list string) : ~ In x l -> mem x l = false.
Proof.
  intro H; destruct (mem x l) eqn:E; [| reflexivity].
  now apply mem_In in E.
Qed.

(** C10: on a session that used NotebookEdit but neither Edit nor Write,
    [analyze_session] and [detect_failure_signals] compute
    [has_edits = false]: the evaluator never counts "has_edits" as met, the
    task types that require edits are not completed, and the scorer grants
    no has_edits bonus; yet [classify_session_type] answers "work" for the
    same session, because NotebookEdit is one of its write tools. *)
Theorem notebook_edit_disagreement (s : Session) :
  In "NotebookEdit" (tools_used s) ->
  ~ In "Edit" (tools_used s) ->
  ~ In "Write" (tools_used s) ->
  session_has_edits s = false
  /\ uses_edit_tools (tools_used s) = false
  /\ classify_session_type (or_zero (duration_minutes s)) (tool_call_count s)
       (session_has_edits s) (tools_used s) = "work"
  /\ analysis_yields s (fun r =>
       (forall d, ~ In ("has_edits", d) (positive_signals (confidence r)))
       /\ ~ In "has_edits" (criteria_met (completion r))
       /\ (In (task_type r) ["bug_fix"; "feature"; "refactor"] ->
           completed (completion r) = false
           /\ In "has_edits" (criteria_missing (completion r)))).
Proof.
  intros Hnb Hedit Hwrite.
  assert (He : session_has_edits s = false).
  { unfold session_has_edits. now rewrite !mem_false. }
  repeat split.
  - exact He.
  - unfold uses_edit_tools; cbn [existsb]. now rewrite !mem_false.
  - unfold classify_session_type; rewrite He.
    assert (Hw : existsb (fun t => mem t write_tools) (tools_used s) = true).
    { apply existsb_exists; exists "NotebookEdit"; split;
        [assumption | reflexivity]. }
    rewrite Hw.
    destruct (Qgeb _ _); [reflexivity |].
    destruct (_ >=? _)%Z; reflexivity.
  - apply analysis_yields_intro; intros iss _.
    rewrite confidence_of_analysis, completion_of_analysis, He.
    split; [apply no_bonus_without_edits | apply completion_without_edits].
Qed.

Lemma notebook_edit_disagreement_witness :
  session_has_edits notebook_session = false
  /\ classify_session_type (or_zero (duration_minutes notebook_session))
       (tool_call_count notebook_session)
       (session_has_edits notebook_session) (tools_used notebook_session)
     = "work".
Proof.
  assert (H1 : In "NotebookEdit" (tools_used notebook_session))
    by (right; left; reflexivity).
  assert (H2 : ~ In "Edit" (tools_used notebook_session))
    by (cbn; intuition discriminate).
  assert (H3 : ~ In "Write" (tools_used notebook_session))
    by (cbn; intuition discriminate).
  destruct (notebook_edit_disagreement notebook_session H1 H2 H3)
    as [Hedits [_ [Hwork _]]].
  split; assumption.
Defined.


(** * Further properties of the analyzer *)

(** ** Git operation classifier *)

Lemma len_app {A : Type} (l1 l2 : list A) : len (l1 ++ l2) = (len l1 + len l2)%Z.
Proof. unfold len; rewrite length_app; lia. Qed.

Lemma len_nonneg {A : Type} (l : list A) : (0 <= len l)%Z.
Proof. unfold len; lia. Qed.

Lemma git_scan_merge_init (st : GitScan) :
  git_scan_merge st git_scan_init = st.
Proof.
  destruct st; unfold git_scan_merge; cbn.
  now rewrite app_nil_r, !orb_false_r, Z.add_0_r.
Qed.

Lemma git_scan_step_merge (a b : GitScan) (cmd : string) :
  git_scan_step (git_scan_merge a b) cmd
  = git_scan_merge a (git_scan_step b cmd).
Proof.
  unfold git_scan_step.
  destruct (contains "git" (lower cmd)); cbn [negb]; [| reflexivity].
  unfold git_scan_merge; cbn.
  destruct (Re.search "\bgit\s+commit\b" (lower cmd)),
    (Re.search "\bgit\s+push\b" (lower cmd)),
    (Re.search "\bgit\s+add\b" (lower cmd)),
    (contains "error" (lower cmd) || contains "fail" (lower cmd)
     || contains "abort" (lower cmd));
    cbn; rewrite ?orb_true_r, ?app_assoc, ?Z.add_assoc; reflexivity.
Qed.

Lemma git_scan_fold_merge (commands : list string) (a b : GitScan) :
  fold_left git_scan_step commands (git_scan_merge a b)
  = git_scan_merge a (fold_left git_scan_step commands b).
Proof.
  revert b; induction commands as [|cmd rest IH]; intro b; cbn [fold_left].
  - reflexivity.
  - now rewrite git_scan_step_merge, IH.
Qed.

Lemma git_scan_app (c1 c2 : list string) :
  fold_left git_scan_step (c1 ++ c2) git_scan_init
  = git_scan_merge (fold_left git_scan_step c1 git_scan_init)
                   (fold_left git_scan_step c2 git_scan_init).
Proof.
  rewrite fold_left_app, <- git_scan_fold_merge.
  now rewrite git_scan_merge_init.
Qed.

Lemma git_scan_step_ok (st : GitScan) (cmd : string) :
  git_scan_ok st -> git_scan_ok (git_scan_step st cmd).
Proof.
  unfold git_scan_ok, git_scan_step; intros [Hc [Hiff Hf]].
  destruct (contains "git" (lower cmd)); cbn [negb]; [| auto].
  cbn [gs_commands gs_commit gs_failed_commit gs_commit_count].
  rewrite len_app; change (len [cmd]) with 1%Z.
  destruct (Re.search "\bgit\s+commit\b" (lower cmd)); cbn [andb].
  - repeat split; intros; try reflexivity; lia.
  - repeat split; try lia; try apply Hiff; auto.
Qed.

Lemma git_scan_fold_ok (commands : list string) (st : GitScan) :
  git_scan_ok st -> git_scan_ok (fold_left git_scan_step commands st).
Proof.
  revert st; induction commands as [|cmd rest IH]; intros st H; cbn; auto.
  apply IH, git_scan_step_ok, H.
Qed.

Lemma git_scan_init_ok : git_scan_ok git_scan_init.
Proof.
  unfold git_scan_ok; cbn; repeat split; intros; try discriminate; lia.
Qed.

Lemma filter_len_le {A : Type} (f : A -> bool) (l : list A) :
  (len (filter f l) <= len l)%Z.
Proof.
  unfold len; induction l as [|x l IH]; cbn; [lia |].
  destruct (f x); cbn; lia.
Qed.

Lemma git_operations_facts (commands : list string) :
  let ops := classify_git_operations commands in
  git_commands ops = filter (fun cmd => contains "git" (lower cmd)) commands
  /\ (0 <= commit_count ops <= len (git_commands ops))%Z
  /\ (has_commit ops = true <-> (1 <= commit_count ops)%Z).
Proof.
  cbv zeta; split.
  - unfold classify_git_operations; cbn [git_commands].
    now rewrite git_scan_commands.
  - unfold classify_git_operations;
      cbn [git_commands commit_count has_commit].
    destruct (git_scan_fold_ok commands git_scan_init git_scan_init_ok)
      as [H1 [H2 _]]. split; assumption.
Qed.

Lemma failed_commit_is_commit (commands : list string) :
  has_failed_commit (classify_git_operations commands) = true ->
  has_commit (classify_git_operations commands) = true.
Proof.
  unfold classify_git_operations; cbn [has_failed_commit has_commit].
  apply (git_scan_fold_ok commands git_scan_init git_scan_init_ok).
Qed.

(** X1: the git commands collected are exactly the commands that contain
    "git" in any letter case, in their order; the commit counter stays
    between 0 and their number, [has_commit] holds exactly when the counter
    is positive, and a failed commit is always a commit. *)
Theorem git_operations_consistent (commands : list string) :
  let ops := classify_git_operations commands in
  git_commands ops = filter (fun cmd => contains "git" (lower cmd)) commands
  /\ (0 <= commit_count ops <= len (git_commands ops))%Z
  /\ (len (git_commands ops) <= len commands)%Z
  /\ (has_commit ops = true <-> (1 <= commit_count ops)%Z)
  /\ (has_failed_commit ops = true -> has_commit ops = true).
Proof.
  cbv zeta.
  assert (E : git_commands (classify_git_operations commands)
              = filter (fun cmd => contains "git" (lower cmd)) commands).
  { unfold classify_git_operations; cbn [git_commands].
    now rewrite git_scan_commands. }
  split; [exact E |].
  split; [| split; [rewrite E; apply filter_len_le |]];
    unfold classify_git_operations;
    cbn [git_commands commit_count has_commit has_failed_commit];
    apply (git_scan_fold_ok commands git_scan_init git_scan_init_ok).
Qed.

(** X2: classifying two command lists put end to end gives the commands
    of both, the sum of the commit counts and the disjunction of each flag;
    the result is read-only when at least one git command was collected
    and neither part holds a git command that is not read-only. *)
Theorem git_operations_of_concatenation (c1 c2 : list string) :
  let o1 := classify_git_operations c1 in
  let o2 := classify_git_operations c2 in
  let o := classify_git_operations (c1 ++ c2) in
  git_commands o = git_commands o1 ++ git_commands o2
  /\ commit_count o = (commit_count o1 + commit_count o2)%Z
  /\ has_commit o = has_commit o1 || has_commit o2
  /\ has_push o = has_push o1 || has_push o2
  /\ has_add o = has_add o1 || has_add o2
  /\ has_failed_commit o = has_failed_commit o1 || has_failed_commit o2
  /\ read_only o
     = (read_only o1 || is_nil (git_commands o1))
       && (read_only o2 || is_nil (git_commands o2))
       && negb (is_nil (git_commands o1) && is_nil (git_commands o2)).
Proof.
  cbv zeta; unfold classify_git_operations.
  cbn [git_commands commit_count has_commit has_push has_add
       has_failed_commit read_only].
  rewrite git_scan_app.
  cbn [git_scan_merge gs_commands gs_commit gs_push gs_add gs_failed_commit
       gs_commit_count].
  repeat split.
  rewrite forallb_app.
  destruct (gs_commands (fold_left git_scan_step c1 git_scan_init)) as [|x l1],
    (gs_commands (fold_left git_scan_step c2 git_scan_init)) as [|y l2];
    cbn [is_nil app forallb andb orb negb];
    rewrite ?andb_true_r, ?orb_false_r, ?andb_false_r, ?orb_true_r;
    reflexivity.
Qed.

(** ** Failure signal detector *)

(** The detector's result, one optional signal per check. *)
Lemma detect_failure_signals_checks (s : Session) :
  let duration := or_zero (duration_minutes s) in
  let tool_count := tool_call_count s in
  let user_msgs := user_messages s in
  let git_ops := classify_git_operations (commands_sample s) in
  let has_edits := uses_edit_tools (tools_used s) in
  detect_failure_signals s
  = signal_if (negb (is_nil (error_commands s))) "error_in_commands"
              (Z.min 3 (len (error_commands s)))
    ++ signal_if ((user_msgs >? 0)%Z && (tool_count >? 0)%Z
                  && (tool_count >? 15 * user_msgs)%Z)
                 "high_retry_ratio" 2
    ++ signal_if (Qltb duration (inject_Z 2) && (tool_count >? 5)%Z)
                 "quick_abandonment" 2
    ++ signal_if (uses_read_tools (tools_used s) && negb has_edits
                  && (tool_count >? 10)%Z)
                 "read_without_edit" 1
    ++ signal_if (has_failed_commit git_ops) "failed_git_commit" 2
    ++ signal_if
         (negb (is_nil
            (filter (fun prompt =>
                       Re.search_any frustration_patterns (lower prompt))
                    (initial_prompts s))))
         "user_frustration" 2
    ++ signal_if (Qgtb duration (inject_Z 5) && negb has_edits
                  && negb (has_commit git_ops) && (tool_count >? 10)%Z)
                 "no_tangible_output" 1.
Proof.
  cbv zeta; unfold detect_failure_signals, signal_if, error_commands;
    cbv zeta.
  destruct (filter (fun cmd => Re.search_any error_patterns (lower cmd))
                   (commands_sample s));
    destruct (filter (fun prompt =>
                        Re.search_any frustration_patterns (lower prompt))
                     (initial_prompts s));
    reflexivity.
Qed.

Lemma has_signal_app (ty : string) (l1 l2 : list FailureSignal) :
  has_signal ty (l1 ++ l2) = has_signal ty l1 || has_signal ty l2.
Proof. apply existsb_app. Qed.

Lemma has_signal_if (ty : string) (c : bool) (ty' : string) (sev : Z) :
  has_signal ty (signal_if c ty' sev) = c && String.eqb ty' ty.
Proof. destruct c; cbn; [apply orb_false_r | reflexivity]. Qed.

Ltac eval_string_tests :=
  repeat match goal with
         | |- context [String.eqb ?a ?b] =>
             let v := eval vm_compute in (String.eqb a b) in
             change (String.eqb a b) with v
         end.

(** Reduces [has_signal ty (detect_failure_signals s)] to the condition of
    the check that emits [ty]. *)
Ltac signal_condition :=
  rewrite detect_failure_signals_checks; cbv zeta;
  repeat rewrite has_signal_app; repeat rewrite has_signal_if;
  eval_string_tests;
  rewrite ?andb_false_r, ?andb_true_r, ?orb_false_r, ?orb_false_l.

Lemma quick_abandonment_condition (s : Session) :
  has_signal "quick_abandonment" (detect_failure_signals s)
  = Qltb (or_zero (duration_minutes s)) (inject_Z 2)
    && (tool_call_count s >? 5)%Z.
Proof. signal_condition; reflexivity. Qed.

Lemma no_tangible_output_condition (s : Session) :
  has_signal "no_tangible_output" (detect_failure_signals s)
  = Qgtb (or_zero (duration_minutes s)) (inject_Z 5)
    && negb (uses_edit_tools (tools_used s))
    && negb (has_commit (classify_git_operations (commands_sample s)))
    && (tool_call_count s >? 10)%Z.
Proof. signal_condition; reflexivity. Qed.

Lemma failed_git_commit_condition (s : Session) :
  has_signal "failed_git_commit" (detect_failure_signals s)
  = has_failed_commit (classify_git_operations (commands_sample s)).
Proof. signal_condition; reflexivity. Qed.

Lemma high_retry_ratio_condition (s : Session) :
  has_signal "high_retry_ratio" (detect_failure_signals s)
  = (user_messages s >? 0)%Z && (tool_call_count s >? 0)%Z
    && (tool_call_count s >? 15 * user_messages s)%Z.
Proof. signal_condition; reflexivity. Qed.

Lemma user_frustration_condition (s : Session) :
  has_signal "user_frustration" (detect_failure_signals s)
  = negb (is_nil
      (filter (fun prompt => Re.search_any frustration_patterns (lower prompt))
              (initial_prompts s))).
Proof. signal_condition; reflexivity. Qed.

Lemma error_in_commands_condition (s : Session) :
  has_signal "error_in_commands" (detect_failure_signals s)
  = negb (is_nil (error_commands s)).
Proof. signal_condition; reflexivity. Qed.

Lemma Qltb_Qgtb_exclusive (d : Q) (a b : Z) :
  (a <= b)%Z -> Qltb d (inject_Z a) && Qgtb d (inject_Z b) = false.
Proof.
  intro Hab; unfold Qltb, Qgtb.
  destruct (Qle_bool (inject_Z a) d) eqn:E1; [reflexivity |].
  destruct (Qle_bool d (inject_Z b)) eqn:E2; [reflexivity |].
  exfalso.
  assert (H1 : ~ (inject_Z a <= d)%Q)
    by (intro H; apply Qle_bool_iff in H; congruence).
  assert (H2 : ~ (d <= inject_Z b)%Q)
    by (intro H; apply Qle_bool_iff in H; congruence).
  assert (H3 : (inject_Z a <= inject_Z b)%Q)
    by (rewrite <- Zle_Qle; exact Hab).
  lra.
Qed.

Lemma in_signal_if (sg : FailureSignal) (c : bool) (ty : string) (sev : Z) :
  In sg (signal_if c ty sev) <-> c = true /\ sg = signal ty sev.
Proof.
  unfold signal_if; destruct c; cbn; split.
  - intros [H | []]; auto.
  - intros [_ H]; auto.
  - intros [].
  - intros [H _]; discriminate.
Qed.

Lemma map_type_signal_if (c : bool) (ty : string) (sev : Z) :
  map fs_type (signal_if c ty sev) = if c then [Some ty] else [].
Proof. destruct c; reflexivity. Qed.

Lemma len_pos_of_not_nil {A : Type} (l : list A) :
  is_nil l = false -> (1 <= len l)%Z.
Proof. destruct l; [discriminate | unfold len; cbn; lia]. Qed.

(** X3: the detector emits at most one signal of each type, every signal
    has one of the seven types and a severity between 1 and 3, a
    no_tangible_output signal never comes with a quick_abandonment or a
    failed_git_commit signal, and the severities add up to 12 at most. *)
Theorem failure_signals_shape (s : Session) :
  let signals := detect_failure_signals s in
  NoDup (map fs_type signals)
  /\ (forall sg, In sg signals ->
        exists ty sev, sg = signal ty sev /\ In ty signal_types
                       /\ (1 <= sev <= 3)%Z)
  /\ has_signal "quick_abandonment" signals
     && has_signal "no_tangible_output" signals = false
  /\ has_signal "failed_git_commit" signals
     && has_signal "no_tangible_output" signals = false
  /\ (0 <= total_severity signals <= 12)%Z.
Proof.
  cbv zeta.
  assert (Hq : has_signal "quick_abandonment" (detect_failure_signals s)
               && has_signal "no_tangible_output" (detect_failure_signals s)
               = false).
  { rewrite quick_abandonment_condition, no_tangible_output_condition.
    pose proof (Qltb_Qgtb_exclusive (or_zero (duration_minutes s)) 2 5
                  ltac:(lia)) as H.
    destruct (Qltb _ _), (Qgtb _ _); try discriminate H;
      rewrite ?andb_false_l, ?andb_false_r; reflexivity. }
  assert (Hg : has_signal "failed_git_commit" (detect_failure_signals s)
               && has_signal "no_tangible_output" (detect_failure_signals s)
               = false).
  { rewrite failed_git_commit_condition, no_tangible_output_condition.
    pose proof (failed_commit_is_commit (commands_sample s)) as Hf.
    destruct (has_failed_commit _); [| reflexivity].
    rewrite (Hf eq_refl); cbn; now rewrite andb_false_r. }
  split; [| split; [| split; [exact Hq | split; [exact Hg |]]]].
  - rewrite detect_failure_signals_checks; cbv zeta.
    repeat rewrite map_app; repeat rewrite map_type_signal_if.
    repeat match goal with
           | |- context [if ?b then [Some _] else []] => destruct b
           end;
      cbn [app]; repeat constructor; cbn [In];
      intuition discriminate.
  - intros sg; rewrite detect_failure_signals_checks; cbv zeta.
    repeat rewrite in_app_iff; repeat rewrite in_signal_if.
    unfold signal_types; cbn [In].
    intros H;
      repeat (destruct H as [[Hc ->] | H];
              [eexists; eexists; split; [reflexivity |]; split;
               [tauto | try lia] |]);
      try (destruct H as [Hc ->];
           eexists; eexists; split; [reflexivity |]; split;
           [tauto | lia]).
    apply negb_true_iff, len_pos_of_not_nil in Hc; lia.
  - revert Hq Hg. rewrite !no_tangible_output_condition,
      quick_abandonment_condition, failed_git_commit_condition.
    rewrite detect_failure_signals_checks; cbv zeta.
    pose proof (len_nonneg (error_commands s)) as Hlen.
    unfold signal_if.
    destruct (is_nil (error_commands s)) eqn:En; cbn [negb];
      [| apply len_pos_of_not_nil in En];
      repeat match goal with
             | |- context [if ?b then [signal _ _] else []] => destruct b
             end;
      cbn -[Z.min]; intros; try discriminate; lia.
Qed.

Lemma error_signals_detected (s : Session) :
  error_signals (detect_failure_signals s)
  = signal_if (negb (is_nil (error_commands s))) "error_in_commands"
              (Z.min 3 (len (error_commands s))).
Proof.
  unfold error_signals; rewrite detect_failure_signals_checks; cbv zeta.
  repeat rewrite filter_app.
  unfold signal_if.
  repeat match goal with
         | |- context [if ?b then [signal _ _] else []] => destruct b
         end; reflexivity.
Qed.

Lemma pipeline_error_penalty_value (s : Session) :
  error_penalty (detect_failure_signals s)
  = (5 * Z.min 3 (len (error_commands s)))%Z.
Proof.
  unfold error_penalty; fold (error_signals (detect_failure_signals s)).
  rewrite error_signals_detected.
  pose proof (len_nonneg (error_commands s)) as Hlen.
  unfold signal_if.
  destruct (is_nil (error_commands s)) eqn:En; cbn [negb fold_right].
  - destruct (error_commands s); [cbn; lia | discriminate].
  - apply len_pos_of_not_nil in En.
    unfold severity_or, signal; cbn [fs_severity]. lia.
Qed.

(** The entry recorded for error patterns, for any signal list. *)
Lemma errors_detected_entry
    (task_type : string) (has_edits has_reads : bool) (files_touched : Z)
    (git_ops : GitOps) (has_test_run : bool)
    (failure_signals : list FailureSignal) (duration : Q) (user_msgs : Z)
    (completion_eval : CompletionEval) (d : Z) :
  In ("errors_detected", d)
     (negative_signals
        (calculate_completion_confidence task_type has_edits has_reads
           files_touched git_ops has_test_run failure_signals duration
           user_msgs completion_eval))
  <-> is_nil (error_signals failure_signals) = false
      /\ d = (- error_penalty failure_signals)%Z.
Proof.
  rewrite negative_signals_entries.
  repeat rewrite in_app_iff. repeat rewrite in_entry.
  rewrite negb_true_iff.
  split.
  - intros [[Hc He] | H]; [split; congruence |].
    repeat (destruct H as [[_ H] | H]; [discriminate H |]).
    destruct H as [_ H]; discriminate H.
  - intros [Hc ->]; left; split; [assumption | reflexivity].
Qed.

(** X4: on the signals the detector emits, the error penalty of the scorer
    is 5 points per command that shows an error pattern, for at most three
    commands: the cap of 20 is never reached, and the entry recorded in the
    analysis is -5, -10 or -15. *)
Theorem pipeline_error_penalty (s : Session) :
  let n := len (error_commands s) in
  error_penalty (detect_failure_signals s) = (5 * Z.min 3 n)%Z
  /\ (error_penalty (detect_failure_signals s) <= 15)%Z
  /\ analysis_yields s (fun r =>
       forall d, In ("errors_detected", d) (negative_signals (confidence r))
                 <-> (1 <= n)%Z /\ d = (- (5 * Z.min 3 n))%Z).
Proof.
  cbv zeta; rewrite pipeline_error_penalty_value.
  split; [reflexivity | split; [lia |]].
  apply analysis_yields_intro; intros iss _ d.
  rewrite confidence_of_analysis, errors_detected_entry.
  rewrite pipeline_error_penalty_value, error_signals_detected.
  pose proof (len_nonneg (error_commands s)) as Hlen.
  unfold signal_if.
  destruct (is_nil (error_commands s)) eqn:En; cbn [negb is_nil].
  - destruct (error_commands s); [| discriminate].
    change (len (@nil string)) with 0%Z.
    split; [intros [H _]; discriminate | intros [H _]; lia].
  - apply len_pos_of_not_nil in En. tauto.
Qed.

(** X5: whenever the detector emits a high_retry_ratio signal (more than
    15 tool calls per user message), [detect_issues], when it returns,
    reports a high_tool_usage issue (more than 10 per message). *)
Theorem high_retry_ratio_is_high_tool_usage (s : Session) (found : list string) :
  has_signal "high_retry_ratio" (detect_failure_signals s) = true ->
  detect_issues s = Some found ->
  In "high_tool_usage" found.
Proof.
  rewrite high_retry_ratio_condition; intros Hr Hd.
  apply andb_true_iff in Hr; destruct Hr as [Hr H15].
  apply andb_true_iff in Hr; destruct Hr as [Hu Ht].
  unfold detect_issues in Hd; cbv zeta in Hd.
  destruct (duration_minutes s); [| discriminate].
  injection Hd as <-.
  apply in_or_app; right; apply in_or_app; left.
  assert (H10 : (tool_call_count s >? 10 * user_messages s)%Z = true).
  { pose proof Hu as Hu'; pose proof H15 as H15'.
    rewrite Z.gtb_ltb, Z.ltb_lt in Hu', H15'.
    rewrite Z.gtb_ltb, Z.ltb_lt. lia. }
  match goal with
  | |- In _ (if ?c then _ else _) =>
      assert (Hc : c = true) by (apply andb_true_iff; split; assumption);
      rewrite Hc; left; reflexivity
  end.
Qed.

Lemma high_retry_ratio_is_high_tool_usage_witness :
  has_signal "high_retry_ratio" (detect_failure_signals busy_session) = true
  /\ detect_issues busy_session = Some ["high_tool_usage"]
  /\ In "high_tool_usage" ["high_tool_usage"].
Proof.
  assert (H1 : has_signal "high_retry_ratio"
                 (detect_failure_signals busy_session) = true)
    by (vm_compute; reflexivity).
  assert (H2 : detect_issues busy_session = Some ["high_tool_usage"])
    by (vm_compute; reflexivity).
  split; [exact H1 | split; [exact H2 |]].
  exact (high_retry_ratio_is_high_tool_usage busy_session
           ["high_tool_usage"] H1 H2).
Defined.


(** ** Session-type and task-type classifiers *)



(** X8: [classify_task_type] always answers one of its eleven task
    types. *)
Theorem task_type_enumerated
    (prompts commands tools : list string)
    (duration : option Q) (tool_calls : option Z) (has_edits : option bool) :
  In (classify_task_type prompts commands tools duration tool_calls has_edits)
     task_types.
Proof.
  unfold classify_task_type; cbv zeta.
  repeat match goal with
         | |- context [if ?b then _ else _] => destruct b
         end;
    unfold task_types; cbn [In]; tauto.
Qed.

Lemma lower_char_idempotent (c : ascii) :
  lower_char (lower_char c) = lower_char c.
Proof.
  destruct c as [[] [] [] [] [] [] [] []]; reflexivity.
Qed.

Lemma lower_upper_char (c : ascii) : lower_char (upper_char c) = lower_char c.
Proof.
  destruct c as [[] [] [] [] [] [] [] []]; reflexivity.
Qed.

Lemma lower_append (a b : string) :
  lower (a ++ b) = (lower a ++ lower b)%string.
Proof. induction a as [|c a IH]; cbn; [reflexivity | now rewrite IH]. Qed.

Lemma lower_lower (s : string) : lower (lower s) = lower s.
Proof.
  induction s as [|c s IH]; cbn; [reflexivity |].
  now rewrite lower_char_idempotent, IH.
Qed.

Lemma lower_upper (s : string) : lower (upper s) = lower s.
Proof.
  induction s as [|c s IH]; cbn; [reflexivity |].
  now rewrite lower_upper_char, IH.
Qed.

Lemma lower_join (sep : string) (l : list string) :
  lower (join sep l) = join (lower sep) (map lower l).
Proof.
  induction l as [|p rest IH]; [reflexivity |].
  destruct rest as [|q rest']; [reflexivity |].
  cbn [map join] in *. now rewrite !lower_append, IH.
Qed.

(** X9: the task type depends on the prompts only through their
    lower-case forms; in particular putting every prompt in upper case
    leaves it unchanged. *)
Theorem task_type_ignores_case
    (prompts commands tools : list string)
    (duration : option Q) (tool_calls : option Z) (has_edits : option bool) :
  (forall prompts',
      map lower prompts' = map lower prompts ->
      classify_task_type prompts' commands tools duration tool_calls
        has_edits
      = classify_task_type prompts commands tools duration tool_calls
          has_edits)
  /\ classify_task_type (map upper prompts) commands tools duration
       tool_calls has_edits
     = classify_task_type prompts commands tools duration tool_calls
         has_edits.
Proof.
  assert (H : forall prompts',
             map lower prompts' = map lower prompts ->
             all_text prompts' = all_text prompts).
  { intros prompts' E; unfold all_text. now rewrite !lower_join, E. }
  split.
  - intros prompts' E. unfold classify_task_type; cbv zeta.
    now rewrite (H prompts' E).
  - unfold classify_task_type; cbv zeta.
    rewrite (H (map upper prompts)); [reflexivity |].
    rewrite map_map. apply map_ext, lower_upper.
Qed.

(** ** Completion evaluator *)

Ltac split_all_ifs :=
  repeat match goal with
         | |- context [if ?b then _ else _] => destruct b
         end.

(** A type-specific verdict [true] leaves no criterion missing and at
    least one met. *)
Lemma type_specific_complete
    (task_type : string) (has_edits has_reads : bool) (files_touched : Z)
    (git_ops : GitOps) (commands tools_used : list string)
    (duration : Q) (user_msgs : Z) :
  let r := type_specific task_type has_edits has_reads files_touched git_ops
             commands tools_used duration user_msgs in
  snd r = true -> missing (fst r) = [] /\ met (fst r) <> [].
Proof.
  cbv zeta; unfold type_specific; cbv zeta.
  repeat match goal with
         | |- context [if String.eqb task_type ?x then _ else _] =>
             destruct (String.eqb task_type x)
         end;
    unfold check, note; destruct has_edits, has_reads;
    cbn [andb orb fst snd met missing app];
    split_all_ifs; cbn [andb orb fst snd met missing app];
    intro H; try discriminate H; (split; [reflexivity | discriminate]).
Qed.

(** X10: when the evaluator returns [completed = true], no criterion is
    missing, at least one is met and the completion type is "completed";
    the completion type is one of "completed", "partially_completed" and
    "not_completed", and it is "completed" only when [completed] is true. *)
Theorem completed_means_all_criteria_met
    (task_type : string) (has_edits has_reads : bool) (files_touched : Z)
    (git_ops : GitOps) (commands tools_used : list string)
    (duration : Q) (user_msgs : Z) (failure_signals : list FailureSignal) :
  let e := evaluate_task_completion task_type has_edits has_reads
             files_touched git_ops commands tools_used duration user_msgs
             failure_signals in
  (completed e = true ->
   criteria_missing e = [] /\ criteria_met e <> []
   /\ completion_type e = "completed")
  /\ (completion_type e = "completed" -> completed e = true)
  /\ In (completion_type e)
        ["completed"; "partially_completed"; "not_completed"].
Proof.
  cbv zeta.
  pose proof (type_specific_complete task_type has_edits has_reads
                files_touched git_ops commands tools_used duration
                user_msgs) as Hts; cbv zeta in Hts.
  unfold evaluate_task_completion.
  destruct (type_specific _ _ _ _ _ _ _ _ _) as [cr c];
    cbn [fst snd] in Hts.
  destruct c; [destruct (high_severity_failure failure_signals) |];
    cbn [andb completed criteria_missing criteria_met completion_type
         met missing].
  - split; [discriminate |]. split_all_ifs; cbn [In]; split;
      try discriminate; tauto.
  - destruct (Hts eq_refl) as [Hm Hn].
    split; [intros _; auto |]. split; [reflexivity | cbn [In]; tauto].
  - split; [discriminate |]. split_all_ifs; cbn [In]; split;
      try discriminate; tauto.
Qed.

Lemma completed_means_all_criteria_met_witness :
  let e := evaluate_task_completion "testing" false true 0 no_git
             ["npm test"] ["Read"; "Bash"] (inject_Z 4) 1 [] in
  criteria_missing e = [] /\ criteria_met e = ["test_execution"].
Proof.
  cbv zeta.
  destruct (completed_means_all_criteria_met "testing" false true 0 no_git
              ["npm test"] ["Read"; "Bash"] (inject_Z 4) 1 [])
    as [H _].
  destruct (H ltac:(vm_compute; reflexivity)) as [Hmissing _].
  split; [exact Hmissing | vm_compute; reflexivity].
Defined.

(** X11: a task type outside the seven with a rule of their own (such as
    "update", "review" or "lookup") is evaluated by the general rule: the
    result is that of "general", and it is completed exactly when there
    are edits, or files touched together with a commit or a push, and no
    failure signal of severity 2 or more. *)
Theorem unlisted_task_type_uses_general_rule
    (task_type : string) (has_edits has_reads : bool) (files_touched : Z)
    (git_ops : GitOps) (commands tools_used : list string)
    (duration : Q) (user_msgs : Z) (failure_signals : list FailureSignal) :
  ~ In task_type ["bug_fix"; "feature"; "refactor"; "debug"; "testing";
                  "config"; "exploration"] ->
  let e := evaluate_task_completion task_type has_edits has_reads
             files_touched git_ops commands tools_used duration user_msgs
             failure_signals in
  e = evaluate_task_completion "general" has_edits has_reads files_touched
        git_ops commands tools_used duration user_msgs failure_signals
  /\ completed e
     = (has_edits
        || (files_touched >? 0)%Z && (has_commit git_ops || has_push git_ops))
       && negb (high_severity_failure failure_signals).
Proof.
  intros Hnot; cbv zeta.
  assert (Hne : forall x,
             In x ["bug_fix"; "feature"; "refactor"; "debug"; "testing";
                   "config"; "exploration"] ->
             String.eqb task_type x = false).
  { intros x Hx; apply String.eqb_neq; intros ->; contradiction. }
  assert (Hts : type_specific task_type has_edits has_reads files_touched
                  git_ops commands tools_used duration user_msgs
                = type_specific "general" has_edits has_reads files_touched
                    git_ops commands tools_used duration user_msgs).
  { unfold type_specific; cbv zeta.
    rewrite !Hne by (cbn [In]; tauto). reflexivity. }
  split.
  - unfold evaluate_task_completion; now rewrite Hts.
  - rewrite completed_after_downgrade, Hts. reflexivity.
Qed.

Lemma unlisted_task_type_uses_general_rule_witness :
  completed (evaluate_task_completion "lookup" false true 0 no_git
               ["grep -rn TODO src"] ["Read"; "Grep"; "Bash"] (inject_Z 2) 1
               []) = false.
Proof.
  assert (Hnot : ~ In "lookup" ["bug_fix"; "feature"; "refactor"; "debug";
                                "testing"; "config"; "exploration"])
    by (cbn [In]; intuition discriminate).
  destruct (unlisted_task_type_uses_general_rule "lookup" false true 0
              no_git ["grep -rn TODO src"] ["Read"; "Grep"; "Bash"]
              (inject_Z 2) 1 [] Hnot) as [_ H].
  rewrite H; reflexivity.
Defined.

(** ** Confidence scorer *)

Lemma deltas_entry (c : bool) (name : string) (d : Z) :
  deltas (entry c name d) = if c then d else 0%Z.
Proof. destruct c; [apply deltas_single | reflexivity]. Qed.

(** X12: with the other inputs fixed, a session with edits never scores
    lower than one without: the 15 points for edits outweigh the 10 points
    an exploration with reads earns only when it has no edits. *)
Theorem edits_never_lower_the_score
    (task_type : string) (has_reads : bool) (files_touched : Z)
    (git_ops : GitOps) (has_test_run : bool)
    (failure_signals : list FailureSignal) (duration : Q) (user_msgs : Z)
    (completion_eval : CompletionEval) :
  (score (calculate_completion_confidence task_type false has_reads
            files_touched git_ops has_test_run failure_signals duration
            user_msgs completion_eval)
   <= score (calculate_completion_confidence task_type true has_reads
               files_touched git_ops has_test_run failure_signals duration
               user_msgs completion_eval))%Z.
Proof.
  rewrite (score_is_clamped_sum task_type false),
    (score_is_clamped_sum task_type true).
  rewrite !negative_signals_entries, !positive_signals_entries; cbv zeta.
  repeat rewrite deltas_app. repeat rewrite deltas_entry.
  destruct (String.eqb task_type "exploration"), has_reads,
    (String.eqb task_type "debug"), (Qgtb duration (inject_Z 5));
    cbn [andb negb];
    repeat match goal with
           | |- context [if ?b then ?x else ?y] =>
               let v := fresh "v" in
               generalize (if b then x else y); intro v
           end; lia.
Qed.

(** ** Outcome resolver *)

(** What the derivation ladder answers on either side of the threshold. *)
Lemma fresh_outcome_by_threshold
    (task_type : string) (has_edits has_reads : bool)
    (duration : Q) (tool_calls user_msgs : Z) (tools_used : list string)
    (issues : list string) (failure_signals : list FailureSignal)
    (completion_eval : CompletionEval) (confidence : Confidence) :
  let o := fresh_outcome task_type has_edits has_reads duration tool_calls
             user_msgs tools_used issues failure_signals completion_eval
             confidence in
  ((score confidence >=? 60)%Z = true ->
   o = (if is_nil issues then "completed" else "completed_with_issues"))
  /\ ((score confidence >=? 60)%Z = false ->
      In o [ "partially_completed"; "exploration_complete";
             "lookup_complete"; "abandoned"; "blocked"; "unclear" ])
  /\ (has_signal "user_frustration" failure_signals = true ->
      In o [ "completed"; "completed_with_issues"; "exploration_complete";
             "abandoned" ]).
Proof.
  cbv zeta; unfold fresh_outcome, COMPLETION_CONFIDENCE_THRESHOLD; cbv zeta.
  destruct (score confidence >=? 60)%Z.
  - split; [intros _; destruct issues; reflexivity |].
    split; [discriminate |].
    intros _; destruct issues; cbn [is_nil negb In]; tauto.
  - split; [discriminate |].
    destruct (has_signal "user_frustration" failure_signals);
      cbn [negb andb]; rewrite ?andb_false_r;
      (split; [intros _ | intro H; try discriminate H]);
      split_all_ifs; cbn [In]; tauto.
Qed.

Lemma outcome_of_fresh_analysis (iss : list string) (s : Session) :
  truthy (prior_outcome s) = false ->
  let r := analyze_with iss s in
  outcome r
  = fresh_outcome (task_type r) (session_has_edits s) (session_has_reads s)
      (or_zero (duration_minutes s)) (tool_call_count s) (user_messages s)
      (tools_used s) iss (failure_signals r) (completion r) (confidence r).
Proof.
  intro Hprior; cbv zeta; rewrite outcome_of_analysis.
  destruct (prior_outcome s) as [a|]; [| reflexivity].
  cbn [truthy] in Hprior.
  destruct (String.eqb a ""); [reflexivity | discriminate].
Qed.

Lemma fresh_analysis_consistent (iss : list string) (s : Session) :
  truthy (prior_outcome s) = false ->
  let r := analyze_with iss s in
  ((score (confidence r) >= 60)%Z
   <-> In (outcome r) ["completed"; "completed_with_issues"])
  /\ (likely_completed r = true <-> In (outcome r) successful_outcomes).
Proof.
  intro Hprior.
  pose proof (outcome_of_fresh_analysis iss s Hprior) as Ho;
    cbv zeta in Ho.
  cbv zeta; set (r := analyze_with iss s) in *.
  change (likely_completed r)
    with ((score (confidence r) >=? COMPLETION_CONFIDENCE_THRESHOLD)%Z
          || mem (outcome r) ["lookup_complete"; "exploration_complete"]).
  unfold COMPLETION_CONFIDENCE_THRESHOLD, successful_outcomes.
  destruct (fresh_outcome_by_threshold (task_type r) (session_has_edits s)
              (session_has_reads s) (or_zero (duration_minutes s))
              (tool_call_count s) (user_messages s) (tools_used s) iss
              (failure_signals r) (completion r) (confidence r))
    as [Hhigh [Hlow _]].
  rewrite <- Ho in Hhigh, Hlow. clear Ho. clearbody r.
  rewrite orb_true_iff, mem_In.
  destruct (score (confidence r) >=? 60)%Z eqn:E.
  - apply Z.geb_le in E. rewrite (Hhigh eq_refl).
    destruct (is_nil iss); cbn [In]; split; split; intros; try lia; tauto.
  - assert (E' : ~ (score (confidence r) >= 60)%Z)
      by (intro H; apply Z.ge_le, Z.geb_le in H; congruence).
    specialize (Hlow eq_refl). cbn [In] in *.
    split; split.
    + intro H; contradiction.
    + intros [H | [H | []]]; rewrite <- H in Hlow;
        intuition discriminate.
    + intros [H | H]; [discriminate | tauto].
    + intros [H | [H | H]]; [| | right; tauto];
        rewrite <- H in Hlow; intuition discriminate.
Qed.

(** X13: for a session without a prior outcome, the confidence score
    reaches 60 exactly when the outcome is "completed" or
    "completed_with_issues", and [likely_completed] holds exactly when the
    outcome is one of the four the aggregate report counts as successful:
    "completed", "completed_with_issues", "exploration_complete" and
    "lookup_complete". *)
Theorem likely_completed_matches_successful_outcomes (s : Session) :
  truthy (prior_outcome s) = false ->
  analysis_yields s (fun r =>
    ((score (confidence r) >= 60)%Z
     <-> In (outcome r) ["completed"; "completed_with_issues"])
    /\ (likely_completed r = true <-> In (outcome r) successful_outcomes)).
Proof.
  intro Hprior; apply analysis_yields_intro; intros iss _.
  now apply fresh_analysis_consistent.
Qed.

Lemma likely_completed_matches_successful_outcomes_witness :
  option_map likely_completed (analyze_session lookup_session) = Some true
  /\ analysis_yields lookup_session (fun r =>
       ((score (confidence r) >= 60)%Z
        <-> In (outcome r) ["completed"; "completed_with_issues"])
       /\ (likely_completed r = true <-> In (outcome r) successful_outcomes)).
Proof.
  split; [vm_compute; reflexivity |].
  exact (likely_completed_matches_successful_outcomes lookup_session
           eq_refl).
Defined.

Lemma remap_outcome_facts
    (prior : string) (iss : list string)
    (signals : list FailureSignal) (completion_eval : CompletionEval) :
  prior <> "" ->
  let o := remap_outcome prior iss signals completion_eval in
  o <> "" /\ o <> "had_issues"
  /\ (o = "completed" -> iss = [])
  /\ (In prior ("had_issues" :: outcome_labels) -> In o outcome_labels).
Proof.
  intros Hne; cbv zeta; unfold remap_outcome.
  destruct (String.eqb prior "completed") eqn:E1.
  - destruct iss; cbn [is_nil negb];
      repeat split; try discriminate; cbn; tauto.
  - destruct (String.eqb prior "had_issues") eqn:E2.
    + split_all_ifs; repeat split; try discriminate; cbn; tauto.
    + apply String.eqb_neq in E1, E2.
      repeat split; try assumption; try contradiction.
      cbn [In]; intros [H | H]; [congruence | exact H].
Qed.

Lemma outcome_facts (iss : list string) (s : Session) :
  let o := outcome (analyze_with iss s) in
  o <> "" /\ o <> "had_issues" /\ (o = "completed" -> iss = []).
Proof.
  cbv zeta; rewrite outcome_of_analysis.
  set (r := analyze_with iss s).
  assert (Hfresh :
    let o := fresh_outcome (task_type r) (session_has_edits s)
               (session_has_reads s) (or_zero (duration_minutes s))
               (tool_call_count s) (user_messages s) (tools_used s) iss
               (failure_signals r) (completion r) (confidence r) in
    o <> "" /\ o <> "had_issues" /\ (o = "completed" -> iss = [])).
  { cbv zeta.
    destruct (fresh_outcome_by_threshold (task_type r) (session_has_edits s)
                (session_has_reads s) (or_zero (duration_minutes s))
                (tool_call_count s) (user_messages s) (tools_used s) iss
                (failure_signals r) (completion r) (confidence r))
      as [Hhigh [Hlow _]].
    destruct (score (confidence r) >=? 60)%Z.
    - rewrite (Hhigh eq_refl).
      destruct iss; cbn [is_nil]; repeat split; discriminate.
    - specialize (Hlow eq_refl); cbn [In] in Hlow.
      repeat split; intro H; rewrite H in Hlow; intuition discriminate. }
  destruct (prior_outcome s) as [a|]; [| exact Hfresh].
  destruct (String.eqb a "") eqn:E; [exact Hfresh |].
  apply String.eqb_neq in E.
  destruct (remap_outcome_facts a iss (failure_signals r) (completion r) E)
    as [H1 [H2 [H3 _]]].
  auto.
Qed.

(** X14: the outcome of an analysis is never empty and never the legacy
    value "had_issues"; it is "completed" only when there are no issues;
    and when the prior outcome is absent, "had_issues" or one of the eight
    labels, the outcome is one of the eight labels. *)
Theorem outcome_stays_in_taxonomy (s : Session) :
  analysis_yields s (fun r =>
    outcome r <> "" /\ outcome r <> "had_issues"
    /\ (outcome r = "completed" -> issues r = [])
    /\ ((forall prior, prior_outcome s = Some prior ->
                       prior = "" \/ In prior ("had_issues" :: outcome_labels)) ->
        In (outcome r) outcome_labels)).
Proof.
  apply analysis_yields_intro; intros iss _.
  destruct (outcome_facts iss s) as [H1 [H2 H3]].
  split; [exact H1 | split; [exact H2 | split; [exact H3 |]]].
  intro Hprior. rewrite outcome_of_analysis.
  destruct (prior_outcome s) as [a|]; [| apply fresh_outcome_label].
  destruct (String.eqb a "") eqn:E; [apply fresh_outcome_label |].
  apply String.eqb_neq in E.
  destruct (Hprior a eq_refl) as [H | H]; [contradiction |].
  now apply remap_outcome_facts.
Qed.

(** X15: an outcome produced by [analyze_session] is kept when it comes
    back as the prior outcome of a session: the second analysis returns it
    unchanged, except that "completed" becomes "completed_with_issues" when
    the second analysis has issues. *)
Theorem outcome_is_stable (s s' : Session) (r r' : Analysis) :
  analyze_session s = Some r ->
  prior_outcome s' = Some (outcome r) ->
  analyze_session s' = Some r' ->
  outcome r'
  = if String.eqb (outcome r) "completed" && negb (is_nil (issues r'))
    then "completed_with_issues" else outcome r.
Proof.
  unfold analyze_session; intros Hr Hprior Hr'.
  destruct (session_issues s) as [iss|]; [| discriminate].
  destruct (session_issues s') as [iss'|]; [| discriminate].
  injection Hr as <-; injection Hr' as <-.
  destruct (outcome_facts iss s) as [H1 [H2 _]].
  rewrite (outcome_of_analysis iss' s'), Hprior.
  change (issues (analyze_with iss' s')) with iss'.
  apply String.eqb_neq in H1, H2. rewrite H1.
  unfold remap_outcome. rewrite H2.
  destruct (String.eqb (outcome (analyze_with iss s)) "completed") eqn:E.
  - apply String.eqb_eq in E. rewrite E.
    destruct iss'; reflexivity.
  - reflexivity.
Qed.

Lemma outcome_is_stable_witness :
  option_map outcome
    (analyze_session
       (normalize_session
          (Reported
             {| rs_duration_minutes := Some (3 # 1);
                rs_outcome := Some "lookup_complete";
                rs_task_summary := Some "hello there";
                rs_task_type := Some "lookup";
                rs_issues := [];
                rs_user_messages := 1;
                rs_assistant_messages := 1;
                rs_tool_calls := 4;
                rs_tools_used := ["Read"; "Grep"];
                rs_files_touched := 0 |})))
  = Some "lookup_complete".
Proof.
  set (s' := normalize_session _).
  destruct (analyze_session lookup_session) as [r|] eqn:Er;
    [| vm_compute in Er; discriminate].
  destruct (analyze_session s') as [r'|] eqn:Er';
    [| vm_compute in Er'; discriminate].
  assert (Ho : outcome r = "lookup_complete").
  { vm_compute in Er. injection Er as <-. reflexivity. }
  assert (Hp : prior_outcome s' = Some (outcome r))
    by (rewrite Ho; reflexivity).
  cbn [option_map].
  rewrite (outcome_is_stable lookup_session s' r r' Er Hp Er'), Ho.
  reflexivity.
Defined.

Lemma completion_type_completed
    (task_type : string) (has_edits has_reads : bool) (files_touched : Z)
    (git_ops : GitOps) (commands tools_used : list string)
    (duration : Q) (user_msgs : Z) (failure_signals : list FailureSignal) :
  let e := evaluate_task_completion task_type has_edits has_reads
             files_touched git_ops commands tools_used duration user_msgs
             failure_signals in
  completion_type e = "completed" -> completed e = true.
Proof.
  cbv zeta; unfold evaluate_task_completion.
  destruct (type_specific _ _ _ _ _ _ _ _ _) as [cr c].
  destruct c, (high_severity_failure failure_signals);
    cbn [andb completed completion_type met missing];
    split_all_ifs; intro H; try discriminate H; reflexivity.
Qed.

Lemma has_signal_high_severity
    (ty : string) (signals : list FailureSignal) :
  has_signal ty signals = true ->
  (forall sg, In sg signals -> type_is ty sg = true ->
              (2 <= severity_or 0 sg)%Z) ->
  high_severity_failure signals = true.
Proof.
  unfold has_signal, high_severity_failure; rewrite !existsb_exists.
  intros [sg [Hin Hty]] Hsev; exists sg; split; [assumption |].
  specialize (Hsev sg Hin Hty). lia.
Qed.

(** The signals of the four types the detector always emits with
    severity 2. *)
Lemma severity_two_signals (s : Session) (ty : string) (sg : FailureSignal) :
  In ty ["high_retry_ratio"; "quick_abandonment"; "failed_git_commit";
         "user_frustration"] ->
  In sg (detect_failure_signals s) -> type_is ty sg = true ->
  (2 <= severity_or 0 sg)%Z.
Proof.
  intros Hty Hin His.
  rewrite detect_failure_signals_checks in Hin; cbv zeta in Hin.
  repeat rewrite in_app_iff in Hin. repeat rewrite in_signal_if in Hin.
  cbn [In] in Hty.
  repeat (destruct Hin as [[_ ->] | Hin];
          [cbn in His |- *; try lia;
           repeat (destruct Hty as [<- | Hty]; [discriminate His |]);
           contradiction |]).
  destruct Hin as [_ ->]. cbn in His.
  repeat (destruct Hty as [<- | Hty]; [discriminate His |]); contradiction.
Qed.

(** X16: when a commit of the session failed, the analysis never reports
    the task as completed by the evaluator, whatever the task type: the
    failed_git_commit signal has severity 2.  The scorer records the
    failed_commit penalty of 15 and no successful_commit bonus.  The same
    holds for the evaluator under a high_retry_ratio, quick_abandonment or
    user_frustration signal. *)
Theorem failed_commit_blocks_completion (s : Session) :
  (has_failed_commit (classify_git_operations (commands_sample s)) = true ->
   analysis_yields s (fun r =>
     completed (completion r) = false
     /\ completion_type (completion r) <> "completed"
     /\ In ("failed_commit", (-15)%Z) (negative_signals (confidence r))
     /\ forall d, ~ In ("successful_commit", d)
                       (positive_signals (confidence r))))
  /\ (forall ty,
        In ty ["high_retry_ratio"; "quick_abandonment"; "failed_git_commit";
               "user_frustration"] ->
        has_signal ty (detect_failure_signals s) = true ->
        analysis_yields s (fun r => completed (completion r) = false)).
Proof.
  assert (Hgen : forall ty,
             In ty ["high_retry_ratio"; "quick_abandonment";
                    "failed_git_commit"; "user_frustration"] ->
             has_signal ty (detect_failure_signals s) = true ->
             forall iss, completed (completion (analyze_with iss s)) = false).
  { intros ty Hty Hsig iss.
    rewrite completion_of_analysis, completed_after_downgrade.
    rewrite (has_signal_high_severity ty _ Hsig).
    - apply andb_false_r.
    - intros sg; apply severity_two_signals; assumption. }
  split.
  - intro Hfailed; apply analysis_yields_intro; intros iss _.
    assert (Hc : completed (completion (analyze_with iss s)) = false).
    { apply (Hgen "failed_git_commit"); [cbn; tauto |].
      now rewrite failed_git_commit_condition. }
    split; [exact Hc |]. split.
    + intro Ht. rewrite completion_of_analysis in Ht, Hc.
      apply completion_type_completed in Ht. congruence.
    + rewrite confidence_of_analysis. split.
      * rewrite negative_signals_entries, Hfailed.
        apply in_or_app; right; apply in_or_app; left; left; reflexivity.
      * intros d; rewrite positive_signals_entries; cbv zeta.
        rewrite Hfailed; cbn [negb]; rewrite andb_false_r.
        repeat rewrite in_app_iff. repeat rewrite in_entry.
        intro H.
        repeat (destruct H as [[Hc' H] | H];
                [try discriminate Hc'; try discriminate H |]).
        destruct H as [_ H]; discriminate H.
  - intros ty Hty Hsig; apply analysis_yields_intro; intros iss _.
    now apply (Hgen ty).
Qed.

Lemma failed_commit_blocks_completion_witness :
  has_failed_commit
    (classify_git_operations (commands_sample failed_commit_session)) = true
  /\ analysis_yields failed_commit_session (fun r =>
       completed (completion r) = false
       /\ completion_type (completion r) <> "completed"
       /\ In ("failed_commit", (-15)%Z) (negative_signals (confidence r))
       /\ forall d, ~ In ("successful_commit", d)
                         (positive_signals (confidence r))).
Proof.
  assert (H : has_failed_commit
                (classify_git_operations
                   (commands_sample failed_commit_session)) = true)
    by (vm_compute; reflexivity).
  split; [exact H |].
  exact (proj1 (failed_commit_blocks_completion failed_commit_session) H).
Defined.

(** X17: when the prompts show user frustration, a session without a
    prior outcome ends as "completed", "completed_with_issues",
    "exploration_complete" or "abandoned", never as "lookup_complete",
    "partially_completed", "blocked" or "unclear"; a session reported as
    "had_issues" ends as "abandoned". *)
Theorem frustration_limits_outcome (s : Session) :
  has_signal "user_frustration" (detect_failure_signals s) = true ->
  (truthy (prior_outcome s) = false ->
   analysis_yields s (fun r =>
     In (outcome r) [ "completed"; "completed_with_issues";
                      "exploration_complete"; "abandoned" ]))
  /\ (prior_outcome s = Some "had_issues" ->
      analysis_yields s (fun r => outcome r = "abandoned")).
Proof.
  intro Hf; split.
  - intro Hprior; apply analysis_yields_intro; intros iss _.
    rewrite (outcome_of_fresh_analysis iss s Hprior).
    now apply fresh_outcome_by_threshold.
  - intro Hprior; apply analysis_yields_intro; intros iss _.
    rewrite outcome_of_analysis, Hprior.
    change (String.eqb "had_issues" "") with false; cbv iota.
    destruct (remap_outcome_cases "had_issues" iss
                (failure_signals (analyze_with iss s))
                (completion (analyze_with iss s))) as [_ [H _]].
    rewrite (H eq_refl).
    change (failure_signals (analyze_with iss s))
      with (detect_failure_signals s).
    now rewrite Hf, orb_true_r.
Qed.

Lemma frustration_limits_outcome_witness :
  option_map outcome (analyze_session frustrated_session) = Some "abandoned"
  /\ analysis_yields frustrated_session (fun r =>
       In (outcome r) [ "completed"; "completed_with_issues";
                        "exploration_complete"; "abandoned" ]).
Proof.
  split; [vm_compute; reflexivity |].
  refine (proj1 (frustration_limits_outcome frustrated_session _) eq_refl).
  vm_compute; reflexivity.
Defined.

(** ** Duration histogram *)

Lemma Qltb_mono (d : Q) (a b : Z) :
  (a <= b)%Z -> Qltb d (inject_Z a) = true -> Qltb d (inject_Z b) = true.
Proof.
  unfold Qltb; intros Hab Ha.
  apply negb_true_iff in Ha; apply negb_true_iff.
  destruct (Qle_bool (inject_Z b) d) eqn:E; [| reflexivity].
  apply Qle_bool_iff in E.
  assert (H : (inject_Z a <= d)%Q).
  { apply Qle_trans with (inject_Z b); [| exact E].
    rewrite <- Zle_Qle; exact Hab. }
  apply Qle_bool_iff in H; congruence.
Qed.

Lemma histogram_step_counts (h : Histogram) (d : Q) :
  let h' := histogram_step h d in
  under_1 h' = (under_1 h + bump (in_bucket None (Some 1%Z) d))%Z
  /\ from_1_to_5 h'
     = (from_1_to_5 h + bump (in_bucket (Some 1%Z) (Some 5%Z) d))%Z
  /\ from_5_to_15 h'
     = (from_5_to_15 h + bump (in_bucket (Some 5%Z) (Some 15%Z) d))%Z
  /\ from_15_to_30 h'
     = (from_15_to_30 h + bump (in_bucket (Some 15%Z) (Some 30%Z) d))%Z
  /\ from_30_to_60 h'
     = (from_30_to_60 h + bump (in_bucket (Some 30%Z) (Some 60%Z) d))%Z
  /\ over_60 h' = (over_60 h + bump (in_bucket (Some 60%Z) None d))%Z.
Proof.
  cbv zeta; unfold histogram_step, in_bucket.
  pose proof (Qltb_mono d 1 5 ltac:(lia)) as H15.
  pose proof (Qltb_mono d 5 15 ltac:(lia)) as H515.
  pose proof (Qltb_mono d 15 30 ltac:(lia)) as H1530.
  pose proof (Qltb_mono d 30 60 ltac:(lia)) as H3060.
  destruct (Qltb d (inject_Z 1));
    [rewrite (H15 eq_refl) in *; rewrite (H515 eq_refl) in *;
     rewrite (H1530 eq_refl) in *; rewrite (H3060 eq_refl) |
     destruct (Qltb d (inject_Z 5));
     [rewrite (H515 eq_refl) in *; rewrite (H1530 eq_refl) in *;
      rewrite (H3060 eq_refl) |
      destruct (Qltb d (inject_Z 15));
      [rewrite (H1530 eq_refl) in *; rewrite (H3060 eq_refl) |
       destruct (Qltb d (inject_Z 30));
       [rewrite (H3060 eq_refl) |
        destruct (Qltb d (inject_Z 60))]]]];
    cbn; repeat split; lia.
Qed.

Lemma count_if_cons {A : Type} (f : A -> bool) (x : A) (l : list A) :
  count_if f (x :: l) = (bump (f x) + count_if f l)%Z.
Proof.
  unfold count_if, len, bump; cbn [filter].
  destruct (f x); cbn [List.length]; lia.
Qed.

Lemma histogram_fold_counts (durations : list Q) (h : Histogram) :
  let h' := fold_left histogram_step durations h in
  under_1 h' = (under_1 h + count_if (in_bucket None (Some 1%Z)) durations)%Z
  /\ from_1_to_5 h'
     = (from_1_to_5 h
        + count_if (in_bucket (Some 1%Z) (Some 5%Z)) durations)%Z
  /\ from_5_to_15 h'
     = (from_5_to_15 h
        + count_if (in_bucket (Some 5%Z) (Some 15%Z)) durations)%Z
  /\ from_15_to_30 h'
     = (from_15_to_30 h
        + count_if (in_bucket (Some 15%Z) (Some 30%Z)) durations)%Z
  /\ from_30_to_60 h'
     = (from_30_to_60 h
        + count_if (in_bucket (Some 30%Z) (Some 60%Z)) durations)%Z
  /\ over_60 h'
     = (over_60 h + count_if (in_bucket (Some 60%Z) None) durations)%Z.
Proof.
  revert h; induction durations as [|d rest IH]; intro h; cbv zeta.
  - unfold count_if, len; cbn; repeat split; lia.
  - cbn [fold_left]. rewrite !count_if_cons.
    destruct (IH (histogram_step h d)) as [I1 [I2 [I3 [I4 [I5 I6]]]]].
    destruct (histogram_step_counts h d) as [S1 [S2 [S3 [S4 [S5 S6]]]]].
    rewrite I1, I2, I3, I4, I5, I6, S1, S2, S3, S4, S5, S6.
    repeat split; lia.
Qed.

Lemma histogram_step_total (h : Histogram) (d : Q) :
  histogram_total (histogram_step h d) = (histogram_total h + 1)%Z.
Proof.
  unfold histogram_step, histogram_total.
  split_all_ifs; cbn; lia.
Qed.

Lemma histogram_fold_total (durations : list Q) (h : Histogram) :
  histogram_total (fold_left histogram_step durations h)
  = (histogram_total h + len durations)%Z.
Proof.
  revert h; induction durations as [|d rest IH]; intro h; cbn [fold_left].
  - unfold len; cbn; lia.
  - rewrite IH, histogram_step_total. unfold len; cbn [List.length]. lia.
Qed.

(** X18: the duration histogram counts every duration once: the six
    buckets add up to the number of durations, and each bucket holds the
    number of durations between its bounds (the lower bound included, the
    upper bound excluded); a negative duration falls in "<1min". *)
Theorem duration_histogram_partitions (durations : list Q) :
  let h := calculate_duration_histogram durations in
  histogram_total h = len durations
  /\ under_1 h = count_if (in_bucket None (Some 1%Z)) durations
  /\ from_1_to_5 h = count_if (in_bucket (Some 1%Z) (Some 5%Z)) durations
  /\ from_5_to_15 h = count_if (in_bucket (Some 5%Z) (Some 15%Z)) durations
  /\ from_15_to_30 h = count_if (in_bucket (Some 15%Z) (Some 30%Z)) durations
  /\ from_30_to_60 h = count_if (in_bucket (Some 30%Z) (Some 60%Z)) durations
  /\ over_60 h = count_if (in_bucket (Some 60%Z) None) durations.
Proof.
  cbv zeta; unfold calculate_duration_histogram.
  split; [rewrite histogram_fold_total; reflexivity |].
  exact (histogram_fold_counts durations (mkHistogram 0 0 0 0 0 0)).
Qed.

(** ** Sessions of the report format *)

Lemma fresh_outcome_blocked
    (task_type : string) (has_edits has_reads : bool)
    (duration : Q) (tool_calls user_msgs : Z) (tools_used : list string)
    (issues : list string) (failure_signals : list FailureSignal)
    (completion_eval : CompletionEval) (confidence : Confidence) :
  fresh_outcome task_type has_edits has_reads duration tool_calls user_msgs
    tools_used issues failure_signals completion_eval confidence = "blocked" ->
  has_signal "error_in_commands" failure_signals
  || has_signal "failed_git_commit" failure_signals = true.
Proof.
  unfold fresh_outcome; cbv zeta.
  assert (E : existsb (type_in ["error_in_commands"; "failed_git_commit"])
                failure_signals
              = has_signal "error_in_commands" failure_signals
                || has_signal "failed_git_commit" failure_signals).
  { unfold has_signal; rewrite <- existsb_orb.
    induction failure_signals as [|sg l IH]; [reflexivity |].
    cbn [existsb]; now rewrite IH, type_in_two. }
  rewrite E.
  destruct (has_signal "error_in_commands" failure_signals
            || has_signal "failed_git_commit" failure_signals);
    [reflexivity |].
  split_all_ifs; discriminate.
Qed.

Lemma length_repeat_file (n : Z) :
  len (repeat "file" (Z.to_nat n)) = Z.max 0 n.
Proof. unfold len; rewrite repeat_length; lia. Qed.

(** X19: a session rebuilt from the report format keeps its number of
    files touched (none for a negative count) but has no commands: its
    analysis has no error_in_commands or failed_git_commit signal, its
    scorer grants none of the commit, push and test bonuses, a "bug_fix"
    or "testing" task is never completed by the evaluator, and without a
    prior outcome it is never "blocked". *)
Theorem report_session_has_no_command_evidence (rs : ReportSession) :
  let s := normalize_session (Reported rs) in
  len (files_touched s) = Z.max 0 (rs_files_touched rs)
  /\ analysis_yields s (fun r =>
       has_signal "error_in_commands" (failure_signals r) = false
       /\ has_signal "failed_git_commit" (failure_signals r) = false
       /\ (forall name d,
             In name ["successful_commit"; "git_push"; "tests_ran"] ->
             ~ In (name, d) (positive_signals (confidence r)))
       /\ (In (task_type r) ["bug_fix"; "testing"] ->
           completed (completion r) = false)
       /\ (truthy (prior_outcome s) = false -> outcome r <> "blocked")).
Proof.
  cbv zeta; set (s := normalize_session (Reported rs)).
  assert (Hcmd : commands_sample s = []) by reflexivity.
  split; [apply length_repeat_file |].
  assert (He : has_signal "error_in_commands" (detect_failure_signals s)
               = false).
  { rewrite error_in_commands_condition; unfold error_commands.
    now rewrite Hcmd. }
  assert (Hg : has_signal "failed_git_commit" (detect_failure_signals s)
               = false).
  { rewrite failed_git_commit_condition. now rewrite Hcmd. }
  apply analysis_yields_intro; intros iss _.
  change (failure_signals (analyze_with iss s))
    with (detect_failure_signals s).
  split; [exact He | split; [exact Hg |]].
  split; [| split].
  - intros name d Hname.
    rewrite confidence_of_analysis, positive_signals_entries; cbv zeta.
    rewrite Hcmd.
    change (test_run []) with false.
    change (has_commit (classify_git_operations [])) with false.
    change (has_push (classify_git_operations [])) with false.
    cbn [andb].
    repeat rewrite in_app_iff. repeat rewrite in_entry.
    cbn [In] in Hname. intro H.
    repeat (destruct H as [[Hc H] | H];
            [try discriminate Hc; injection H as H _; subst name;
             intuition discriminate |]).
    destruct H as [_ H]; injection H as H _; subst name;
      intuition discriminate.
  - rewrite completion_of_analysis, completed_after_downgrade, Hcmd.
    cbn [In]; intros [<- | [<- | []]];
      unfold type_specific; cbn -[Qgtb Z.gtb];
      rewrite ?andb_false_r; reflexivity.
  - intros Hprior Hb.
    rewrite (outcome_of_fresh_analysis iss s Hprior) in Hb.
    apply fresh_outcome_blocked in Hb.
    change (failure_signals (analyze_with iss s))
      with (detect_failure_signals s) in Hb.
    rewrite He, Hg in Hb; discriminate.
Qed.

(** ** Success detector *)

(** X20: [detect_successes] reports "git_operations" exactly when the git
    classifier collected a command, so also when the only commit failed;
    it reports "code_changes" exactly when the session has edits and
    touched a file. *)
Theorem successes_follow_git_commands (s : Session) :
  let ops := classify_git_operations (commands_sample s) in
  (In "git_operations" (detect_successes s) <-> git_commands ops <> [])
  /\ (has_commit ops = true -> In "git_operations" (detect_successes s))
  /\ (In "code_changes" (detect_successes s)
      <-> session_has_edits s = true /\ files_touched s <> []).
Proof.
  cbv zeta.
  destruct (git_operations_facts (commands_sample s)) as [Hg [Hc Hiff]].
  assert (H1 : In "git_operations" (detect_successes s)
               <-> git_commands (classify_git_operations (commands_sample s))
                   <> []).
  { rewrite Hg. unfold detect_successes; cbv zeta.
    repeat rewrite in_app_iff.
    destruct (filter (fun c => contains "git" (lower c)) (commands_sample s));
      cbn [is_nil In]; split.
    - intros [H | [H | []]]; exfalso; revert H;
        split_all_ifs; cbn [In]; intuition discriminate.
    - intro H; contradiction.
    - intros _; discriminate.
    - intros _; right; right; left; reflexivity. }
  split; [exact H1 | split].
  - intro H; apply H1. apply Hiff in H. intro E; rewrite E in Hc.
    change (len (@nil string)) with 0%Z in Hc. lia.
  - unfold detect_successes, session_has_edits; cbv zeta.
    repeat rewrite in_app_iff.
    destruct (mem "Edit" (tools_used s) || mem "Write" (tools_used s));
      destruct (files_touched s); cbn [is_nil In]; split;
      try (intros [H | [H | H]]; exfalso; revert H;
           split_all_ifs; cbn [In]; intuition discriminate);
      try (intros [H1' H2']; try discriminate H1'; contradiction).
    + intros _; split; [reflexivity | discriminate].
    + intros _; left; left; reflexivity.
Qed.

(** ** JIRA ticket of a branch name *)














(** ** Aggregate report *)

Lemma fold_count {S A : Type} (step : S -> A -> S) (get : S -> Z)
    (p : A -> bool) :
  (forall st x, get (step st x) = (get st + bump (p x))%Z) ->
  forall l st, get (fold_left step l st) = (get st + count_if p l)%Z.
Proof.
  intros Hstep l; induction l as [|x l IH]; intro st; cbn [fold_left].
  - unfold count_if, len; cbn; lia.
  - rewrite IH, Hstep, count_if_cons; lia.
Qed.

Lemma count_if_le {A : Type} (p q : A -> bool) (l : list A) :
  (forall x, In x l -> p x = true -> q x = true) ->
  (count_if p l <= count_if q l)%Z.
Proof.
  induction l as [|x l IH]; intro H; [unfold count_if, len; cbn; lia |].
  rewrite !count_if_cons.
  assert (IH' : (count_if p l <= count_if q l)%Z)
    by (apply IH; intros y Hy; apply H; right; exact Hy).
  pose proof (H x (or_introl eq_refl)) as Hx.
  unfold bump; destruct (p x); [rewrite (Hx eq_refl) | destruct (q x)]; lia.
Qed.

Lemma count_if_ext {A : Type} (p q : A -> bool) (l : list A) :
  (forall x, In x l -> p x = q x) -> count_if p l = count_if q l.
Proof.
  induction l as [|x l IH]; intro H; [reflexivity |].
  rewrite !count_if_cons, (H x (or_introl eq_refl)), IH; [reflexivity |].
  intros y Hy; apply H; right; exact Hy.
Qed.

Lemma count_if_split {A : Type} (p q : A -> bool) (l : list A) :
  (forall x, In x l -> xorb (p x) (q x) = true) ->
  (count_if p l + count_if q l)%Z = len l.
Proof.
  induction l as [|x l IH]; intro H; [reflexivity |].
  rewrite !count_if_cons.
  assert (IH' : (count_if p l + count_if q l)%Z = len l)
    by (apply IH; intros y Hy; apply H; right; exact Hy).
  pose proof (H x (or_introl eq_refl)) as Hx.
  unfold len in *; cbn [List.length].
  unfold bump; destruct (p x), (q x); try discriminate Hx; lia.
Qed.

Lemma get_count_incr (key key' : string) (c : Counter) :
  get_count key (incr key' c)
  = (get_count key c + bump (String.eqb key' key))%Z.
Proof.
  induction c as [|[k v] c IH]; cbn [incr get_count].
  - unfold bump; destruct (String.eqb key' key); lia.
  - destruct (String.eqb k key') eqn:E1; cbn [get_count].
    + apply String.eqb_eq in E1; subst k.
      unfold bump; destruct (String.eqb key' key); lia.
    + destruct (String.eqb k key) eqn:E2; [| exact IH].
      apply String.eqb_eq in E2; subst k.
      rewrite String.eqb_sym, E1; unfold bump; lia.
Qed.

(** The valid entries of a list. *)
Lemma report_counters (l : list Analyzed) :
  let valid := filter (fun a => is_valid_session (a_session a)) l in
  let rep := generate_aggregate_report l in
  sessions_completed rep
  = count_if (fun a => likely_completed (a_result a)) valid
  /\ sessions_with_edits rep
     = count_if (fun a => session_has_edits (a_session a)) valid
  /\ work_count rep
     = count_if (fun a => String.eqb (reported_session_type a) "work") valid
  /\ lookup_count rep
     = count_if (fun a => String.eqb (reported_session_type a) "lookup") valid
  /\ (forall o, get_count o (by_outcome rep)
                = count_if (fun a => String.eqb (reported_outcome a) o) valid)
  /\ confidence_scores rep
     = map (fun a => score (confidence (a_result a))) valid.
Proof.
  cbv zeta; unfold generate_aggregate_report; cbv zeta.
  set (valid := filter _ l). set (init := mkReport _ _ _ _ _ _ _ _ _ _ _).
  split; [| split; [| split; [| split; [| split]]]].
  - rewrite (fold_count report_step sessions_completed
               (fun a => likely_completed (a_result a))); [reflexivity |].
    intros st x; cbn; unfold bump; destruct (likely_completed _); lia.
  - rewrite (fold_count report_step sessions_with_edits
               (fun a => session_has_edits (a_session a))); [reflexivity |].
    intros st x; cbn; unfold bump; destruct (session_has_edits _); lia.
  - rewrite (fold_count report_step work_count
               (fun a => String.eqb (reported_session_type a) "work"));
      [reflexivity |].
    intros st x; cbn [report_step work_count]; unfold bump;
      destruct (String.eqb _ _); lia.
  - rewrite (fold_count report_step lookup_count
               (fun a => String.eqb (reported_session_type a) "lookup"));
      [reflexivity |].
    intros st x; cbn [report_step lookup_count]; unfold bump;
      destruct (String.eqb _ _); lia.
  - intro o.
    rewrite (fold_count report_step (fun rep => get_count o (by_outcome rep))
               (fun a => String.eqb (reported_outcome a) o)); [reflexivity |].
    intros st x; cbn [report_step by_outcome]. apply get_count_incr.
  - clearbody valid. change (confidence_scores init) with (@nil Z).
    assert (H : forall st,
               confidence_scores (fold_left report_step valid st)
               = confidence_scores st
                 ++ map (fun a => score (confidence (a_result a))) valid).
    { induction valid as [|a v IH]; intro st; cbn [fold_left map].
      - now rewrite app_nil_r.
      - rewrite IH; cbn [report_step confidence_scores].
        now rewrite <- app_assoc. }
    now rewrite H.
Qed.

Lemma report_fixed_fields (l : list Analyzed) (st : Report) :
  let rep := fold_left report_step l st in
  total_sessions rep = total_sessions st
  /\ valid_sessions rep = valid_sessions st
  /\ invalid_sessions rep = invalid_sessions st.
Proof.
  revert st; induction l as [|a l IH]; intro st; cbv zeta; cbn [fold_left].
  - auto.
  - destruct (IH (report_step st a)) as [H1 [H2 H3]].
    rewrite H1, H2, H3; cbn; auto.
Qed.

Lemma session_type_two_values
    (duration : Q) (tool_calls : Z) (has_edits : bool) (tools : list string) :
  xorb (String.eqb (classify_session_type duration tool_calls has_edits tools)
                   "work")
       (String.eqb (classify_session_type duration tool_calls has_edits tools)
                   "lookup") = true
  /\ (has_edits = true ->
      classify_session_type duration tool_calls has_edits tools = "work").
Proof.
  unfold classify_session_type.
  split; [split_all_ifs; reflexivity | intros ->; reflexivity].
Qed.

Lemma count_if_le_len {A : Type} (p : A -> bool) (l : list A) :
  (0 <= count_if p l <= len l)%Z.
Proof.
  split; [apply len_nonneg | apply filter_len_le].
Qed.

Lemma count_if_map {A B : Type} (f : A -> B) (p : B -> bool) (l : list A) :
  count_if p (map f l) = count_if (fun x => p (f x)) l.
Proof.
  induction l as [|x l IH]; [reflexivity |].
  cbn [map]; now rewrite !count_if_cons, IH.
Qed.

Lemma len_map {A B : Type} (f : A -> B) (l : list A) : len (map f l) = len l.
Proof. unfold len; now rewrite length_map. Qed.

(** X22: in the aggregate report the valid and the invalid sessions add
    up to the total, every valid session is counted as exactly one of
    "work" and "lookup", every session with edits is among the "work"
    sessions, and one confidence score is collected per valid session. *)
Theorem report_counts_partition (l : list Analyzed) :
  let rep := generate_aggregate_report l in
  (valid_sessions rep + invalid_sessions rep)%Z = total_sessions rep
  /\ total_sessions rep = len l
  /\ (0 <= invalid_sessions rep)%Z
  /\ (work_count rep + lookup_count rep)%Z = valid_sessions rep
  /\ (sessions_with_edits rep <= work_count rep)%Z
  /\ (0 <= sessions_completed rep <= valid_sessions rep)%Z
  /\ len (confidence_scores rep) = valid_sessions rep.
Proof.
  cbv zeta.
  destruct (report_counters l) as [Hc [He [Hw [Hl [_ Hs]]]]].
  unfold generate_aggregate_report in *; cbv zeta in *.
  set (valid := filter (fun a => is_valid_session (a_session a)) l) in *.
  match goal with
  | |- context [fold_left report_step valid ?init] =>
      destruct (report_fixed_fields valid init) as [F1 [F2 F3]];
      set (rep := fold_left report_step valid init) in *
  end.
  cbn [total_sessions valid_sessions invalid_sessions] in F1, F2, F3.
  rewrite F1, F2, F3, Hc, He, Hw, Hl, Hs, len_map.
  pose proof (filter_len_le (fun a => is_valid_session (a_session a)) l)
    as Hv. fold valid in Hv.
  split; [lia | split; [reflexivity | split; [lia |]]].
  split; [| split; [| split; [apply count_if_le_len | reflexivity]]].
  - apply count_if_split; intros a _.
    apply session_type_two_values.
  - apply count_if_le; intros a _ Ha.
    unfold reported_session_type; cbv zeta.
    destruct (session_type_two_values
                (or_zero (duration_minutes (a_session a)))
                (tool_call_count (a_session a))
                (session_has_edits (a_session a))
                (tools_used (a_session a))) as [_ H].
    now rewrite (H Ha).
Qed.

Lemma count_if_sum4 {A : Type} (p1 p2 p3 p4 q : A -> bool) (l : list A) :
  (forall x, In x l ->
             (bump (p1 x) + bump (p2 x) + bump (p3 x) + bump (p4 x))%Z
             = bump (q x)) ->
  (count_if p1 l + (count_if p2 l + (count_if p3 l + (count_if p4 l + 0))))%Z
  = count_if q l.
Proof.
  induction l as [|x l IH]; intro H; [reflexivity |].
  rewrite !count_if_cons.
  assert (IH' : (count_if p1 l
                 + (count_if p2 l + (count_if p3 l + (count_if p4 l + 0))))%Z
                = count_if q l)
    by (apply IH; intros y Hy; apply H; right; exact Hy).
  pose proof (H x (or_introl eq_refl)). lia.
Qed.

Lemma analyze_session_some (s : Session) (r : Analysis) :
  analyze_session s = Some r -> exists iss, r = analyze_with iss s.
Proof.
  unfold analyze_session; destruct (session_issues s) as [iss|];
    [intros [= <-]; eauto | discriminate].
Qed.

(** X23: when every entry is the analysis of a session without a prior
    outcome, the number of successful outcomes the report adds up from
    [by_outcome] ("completed", "completed_with_issues",
    "exploration_complete", "lookup_complete") is its number of sessions
    likely completed: the expanded completion rate is the completion
    rate. *)
Theorem successful_outcomes_are_the_completed_sessions (l : list Analyzed) :
  (forall a, In a l ->
     truthy (prior_outcome (a_session a)) = false
     /\ analyze_session (a_session a) = Some (a_result a)) ->
  successful_count (generate_aggregate_report l)
  = sessions_completed (generate_aggregate_report l).
Proof.
  intro Hl.
  destruct (report_counters l) as [Hc [_ [_ [_ [Ho _]]]]]; cbv zeta in *.
  unfold successful_count, successful_outcomes; cbn [fold_right].
  rewrite !Ho, Hc.
  apply count_if_sum4; intros a Ha.
  apply filter_In in Ha; destruct Ha as [Ha _].
  destruct (Hl a Ha) as [Hprior Hr].
  apply analyze_session_some in Hr; destruct Hr as [iss Hr].
  destruct (fresh_analysis_consistent iss (a_session a) Hprior) as [_ Hiff].
  destruct (outcome_facts iss (a_session a)) as [Hne _].
  cbv zeta in Hiff, Hne. rewrite <- Hr in Hiff, Hne.
  unfold reported_outcome, or_else.
  apply String.eqb_neq in Hne; rewrite Hne.
  unfold successful_outcomes in Hiff; cbn [In] in Hiff.
  destruct (String.eqb (outcome (a_result a)) "completed") eqn:E1;
    destruct (String.eqb (outcome (a_result a)) "completed_with_issues")
      eqn:E2;
    destruct (String.eqb (outcome (a_result a)) "exploration_complete")
      eqn:E3;
    destruct (String.eqb (outcome (a_result a)) "lookup_complete") eqn:E4;
    rewrite ?String.eqb_eq in *; rewrite ?String.eqb_neq in *;
    try congruence;
    destruct (likely_completed (a_result a));
    cbn [bump]; try reflexivity; exfalso;
    try (assert (Hf : false = true) by (apply Hiff; auto); discriminate Hf);
    destruct (proj1 Hiff eq_refl) as [H | [H | [H | [H | []]]]];
    congruence.
Qed.

Lemma successful_outcomes_are_the_completed_sessions_witness :
  let l := [ mkAnalyzed lookup_session (analyze_with [] lookup_session);
             mkAnalyzed failing_session
               (analyze_with ["command_error"] failing_session) ] in
  sessions_completed (generate_aggregate_report l) = 1%Z
  /\ successful_count (generate_aggregate_report l) = 1%Z.
Proof.
  cbv zeta.
  assert (H : sessions_completed
                (generate_aggregate_report
                   [ mkAnalyzed lookup_session
                       (analyze_with [] lookup_session);
                     mkAnalyzed failing_session
                       (analyze_with ["command_error"] failing_session) ])
              = 1%Z) by (vm_compute; reflexivity).
  split; [exact H |].
  rewrite successful_outcomes_are_the_completed_sessions; [exact H |].
  intros a [<- | [<- | []]]; split; vm_compute; reflexivity.
Defined.

Lemma assess_tests (sc : Z) :
  String.eqb (assess sc) "high" = (sc >=? 70)%Z
  /\ String.eqb (assess sc) "medium" = (40 <=? sc)%Z && (sc <? 70)%Z
  /\ String.eqb (assess sc) "low" = (sc <? 40)%Z.
Proof.
  unfold assess.
  destruct (sc >=? 70)%Z eqn:E70; [| destruct (sc >=? 40)%Z eqn:E40];
    cbn; repeat split; symmetry; lia.
Qed.

Lemma assessment_of_analysis (iss : list string) (s : Session) :
  assessment (confidence (analyze_with iss s))
  = assess (score (confidence (analyze_with iss s))).
Proof. reflexivity. Qed.

Lemma score_counts_partition (scores : list Z) :
  (count_if (fun s => (s >=? 70)%Z) scores
   + count_if (fun s => (40 <=? s)%Z && (s <? 70)%Z) scores
   + count_if (fun s => (s <? 40)%Z) scores)%Z = len scores.
Proof.
  induction scores as [|sc scores IH]; [reflexivity |].
  rewrite !count_if_cons. unfold len in *; cbn [List.length].
  unfold bump.
  destruct (sc >=? 70)%Z eqn:E1, (40 <=? sc)%Z eqn:E2, (sc <? 70)%Z eqn:E3,
    (sc <? 40)%Z eqn:E4; cbn [andb]; lia.
Qed.

(** X24: the report's counts of high, medium and low confidence add up to
    the number of valid sessions, and when the entries are results of
    [analyze_session] each count is the number of valid sessions whose
    assessment carries that label: the report's cut-offs are those of the
    scorer. *)
Theorem confidence_counts_match_assessments (l : list Analyzed) :
  let rep := generate_aggregate_report l in
  let valid := filter (fun a => is_valid_session (a_session a)) l in
  let labelled label :=
    count_if (fun a => String.eqb (assessment (confidence (a_result a))) label)
             valid in
  (high_confidence_count rep + medium_confidence_count rep
   + low_confidence_count rep)%Z = valid_sessions rep
  /\ ((forall a, In a l -> analyze_session (a_session a) = Some (a_result a)) ->
      high_confidence_count rep = labelled "high"
      /\ medium_confidence_count rep = labelled "medium"
      /\ low_confidence_count rep = labelled "low").
Proof.
  cbv zeta.
  destruct (report_counters l) as [_ [_ [_ [_ [_ Hs]]]]]; cbv zeta in Hs.
  unfold high_confidence_count, medium_confidence_count,
    low_confidence_count.
  split.
  - rewrite score_counts_partition, Hs, len_map.
    unfold generate_aggregate_report; cbv zeta.
    match goal with
    | |- context [fold_left report_step ?v ?init] =>
        destruct (report_fixed_fields v init) as [_ [F2 _]]
    end.
    cbv zeta in F2; rewrite F2; reflexivity.
  - rewrite Hs, !count_if_map.
    intro Hl.
    assert (Hp : forall a,
               In a (filter (fun a => is_valid_session (a_session a)) l) ->
               assessment (confidence (a_result a))
               = assess (score (confidence (a_result a)))).
    { intros a Ha; apply filter_In in Ha; destruct Ha as [Ha _].
      destruct (analyze_session_some _ _ (Hl a Ha)) as [iss ->].
      apply assessment_of_analysis. }
    repeat split; apply count_if_ext; intros a Ha; rewrite (Hp a Ha);
      symmetry; apply assess_tests.
Qed.
